(** * fast-rpc: the request dispatcher, the procedure builder and the client

    A shallow embedding of [src/index.ts] (the module under test in
    [src/__tests__/fast-rpc.test.ts]) and the properties of its dispatch
    pipeline: name resolution, input parsing and validation, the middleware
    chain, handler invocation and the mapping of failures to responses.

    How the program is modelled:
    - [handle] is a function of the router, the request and the heap of
      objects; it returns the response, the heap it leaves and the log of the
      calls it made.  The router is not returned: [handle] has no
      assignment to [this.routes] or [this.ctx].
    - Handlers, middleware and schemas are parameters.  A callback is a
      function of what it is called with and of the heap; it has settled, and
      has made its calls of [next], when its [await] returns.
    - The objects that outlive a request are modelled by reference: the
      context objects and the module-level [emptyObject] live in the heap,
      and the two module-level responses are told apart from the responses
      created for a request.  Parsed bodies, schema errors and the values
      built for one request are JSON values.
    - [routes] is a JavaScript object, so a lookup follows the prototype
      chain. *)

From Stdlib Require Import ZArith Ascii.
From stdpp Require Import base option strings list gmap pretty.

Set Warnings "-register-all".

(** * Values *)

(** JSON values: request bodies, handler inputs and response bodies.
    Numbers are integers here; nothing below depends on fractions. *)
Inductive Json : Type :=
| JNull
| JBool (b : bool)
| JNumber (n : Z)
| JString (s : string)
| JArray (items : list Json)
| JObject (fields : list (string * Json)).

(** Context objects live in a heap, because [handle] copies the base context
    ([{ ...this.ctx }]) and middleware may write to the object they are given
    or allocate a new one.  A property holds a primitive or a reference to
    another object, so a copy of the properties is a shallow copy. *)
Abbreviation loc := positive.

Inductive Val : Type :=
| VUndefined
| VBool (b : bool)
| VNumber (n : Z)
| VString (s : string)
| VRef (l : loc).

Abbreviation Obj := (gmap string Val).
Abbreviation Heap := (gmap loc Obj).

(** [type Context]: a reference to a context object. *)
Abbreviation Context := loc.

(** [{ ...o }]: the own properties of the object at [src] (none when there is
    no such object), placed in a freshly allocated object. *)
Definition spread (h : Heap) (src : loc) : Obj := default ∅ (h !! src).

Definition alloc (o : Obj) (h : Heap) : loc * Heap :=
  let l := fresh (dom h) in (l, <[l := o]> h).

(** * Errors *)

(** What a [throw] carries.  [ZodError] is the schema library's error class
    with its [errors] list (taken to be a JSON value); everything else
    ([TypeError], [Error], ...) is a [JsError] with its class and message. *)
Inductive Exn : Type :=
| ZodError (errors : Json)
| JsError (class message : string).

(** The way a call ends: with a value, or by throwing (a rejected promise,
    once awaited). *)
Inductive Completion (A : Type) : Type :=
| Normal (a : A)
| Throw (e : Exn).
Arguments Normal {A} a.
Arguments Throw {A} e.

(** * Responses *)

Inductive Body : Type :=
| JsonBody (data : Json)
| TextBody (text : string).

(** What a [Response] object is constructed with. *)
Record Response := { status : Z; body : Body }.

(** A [Response] object, by reference.  The module creates two when it is
    loaded, [notFoundResponse] and [errorResponse], and returns the same
    object every time.  Any other response is known by what it was made
    with: [handle] creates it with [Response.json] for the request at hand,
    or a middleware hands it over. *)
Inductive ResponseObject : Type :=
| notFoundResponse
| errorResponse
| New (made_with : Response).

(** The arguments of [Response.json(data, { status })]; the status defaults
    to 200. *)
Definition json_response (data : Json) (init : option Z) : Response :=
  {| status := default 200%Z init; body := JsonBody data |}.

(** [Response.json(data, { status })], evaluated while a request is
    handled. *)
Definition Response_json (data : Json) (init : option Z) : ResponseObject :=
  New (json_response data init).

(** What an object was constructed with:
    [const notFoundResponse = Response.json({ error: "Not found" },
    { status: 404 })] and
    [const errorResponse = Response.json({ error: "Unknown error" },
    { status: 500 })] for the two of the module. *)
Definition constructed (r : ResponseObject) : Response :=
  match r with
  | notFoundResponse =>
      json_response (JObject [("error", JString "Not found")]) (Some 404%Z)
  | errorResponse =>
      json_response (JObject [("error", JString "Unknown error")]) (Some 500%Z)
  | New made_with => made_with
  end.

(** [bodyUsed] of the two responses of the module.  [handle] neither reads
    nor sets it; whoever receives a response and reads its body does. *)
Record BodiesUsed := { notFound_used : bool; error_used : bool }.

(** When the module is loaded neither has been read. *)
Definition unread : BodiesUsed :=
  {| notFound_used := false; error_used := false |}.

(** [await response.json()] (or [text()]) by whoever received the response:
    a body can be read once, and a second read throws.  A response that
    [handle] created for the request is read here for the first time. *)
Definition read_body (r : ResponseObject) (used : BodiesUsed)
    : Completion Body * BodiesUsed :=
  match r with
  | notFoundResponse =>
      if notFound_used used
      then (Throw (JsError "TypeError" "Body is unusable"), used)
      else (Normal (body (constructed r)),
            {| notFound_used := true; error_used := error_used used |})
  | errorResponse =>
      if error_used used
      then (Throw (JsError "TypeError" "Body is unusable"), used)
      else (Normal (body (constructed r)),
            {| notFound_used := notFound_used used; error_used := true |})
  | New made_with => (Normal (body made_with), used)
  end.

(** * Inputs

    What is validated and handed to the handler: a value made for this
    request (the parsed body, a value the schema built), or an object of the
    heap by reference, which is what a request without a body gets (the
    module-level [emptyObject]).  A schema may give back the object it was
    given. *)
Inductive Input : Type :=
| Parsed (value : Json)
| Object (l : loc).

(** * The schema collaborator

    [z.ZodType]: only [safeParse] is used.  It answers with
    [{ success: true, data }] or [{ success: false, error }]; it may also
    throw (for instance on an asynchronous refinement).  It reads an object
    it is given in the heap. *)
Inductive SafeParseReturn : Type :=
| SafeParseSuccess (data : Input)
| SafeParseError (errors : Json).

Record ZodType := { safeParse : Input → Heap → Completion SafeParseReturn }.

(** * Callbacks

    A middleware is called with [{ ctx, next }].  What [handle] can observe of
    it: the heap it leaves, the contexts it passed to [next] (in call order,
    before it settled) and what it returned or threw.  [ReturnsOther] stands
    for [undefined] and any other value that is not a [Response].  The label
    is not in the source; it identifies the function in the event log, as the
    spy argument does in the tests. *)
Inductive MiddlewareReturn : Type :=
| ReturnsResponse (r : ResponseObject)
| ReturnsOther.

Record MiddlewareOutcome := {
  mw_heap : Heap;
  mw_next : list Context;
  mw_result : Completion MiddlewareReturn;
}.

Record MiddlewareFunction := {
  mw_name : string;
  mw_apply : Context → Heap → MiddlewareOutcome;
}.

(** A handler returns a value that [Response.json] can serialise, or one it
    cannot ([undefined], a [BigInt], a cyclic object), or throws. *)
Inductive HandlerValue : Type :=
| Serializable (data : Json)
| Unserializable.

Record HandlerOutcome := {
  h_heap : Heap;
  h_result : Completion HandlerValue;
}.

(** [type Handler = (input, ctx) => ...] *)
Definition Handler := Input → Context → Heap → HandlerOutcome.

(** * Observations

    The log records the calls [handle] makes to user code and to
    [console.error]. *)
Inductive Event : Type :=
| MiddlewareCalled (name : string) (ctx : Context)
| MiddlewareSettled (name : string)
| HandlerCalled (input : Input) (ctx : Context)
| ConsoleError (e : Exn).

(** The result of running a piece of the pipeline: its value, the heap it
    leaves and the events it produced, oldest first. *)
Record Run (A : Type) := MkRun { value : A; heap : Heap; events : list Event }.
Arguments MkRun {A} value heap events.
Arguments value {A} r.
Arguments heap {A} r.
Arguments events {A} r.

Definition prepend {A} (evs : list Event) (r : Run A) : Run A :=
  MkRun (value r) (heap r) (evs ++ events r).

(** * Module-level constants

    [const emptyObject = {}]: one object, created when the module is loaded
    and never copied; it is the first object of the heap, and what it holds
    is what the heap has at this location.  The two responses of the module
    are the constructors [notFoundResponse] and [errorResponse] above. *)
Definition emptyObject : loc := 1%positive.

(** * Procedures and their builder *)

Inductive ProcedureType : Type := Query | Mutation.

(** [type Procedure]: a [BaseProcedure] with its [_type] tag.  [_middleware]
    and [input] may be absent. *)
Module Procedure.

Record t := {
  _type : ProcedureType;
  _handler : Handler;
  _middleware : option (list MiddlewareFunction);
  input : option ZodType;
}.

End Procedure.

(** [class ProcedureBuilder]: every method returns a new builder or a
  procedure; none changes [this]. *)
Module ProcedureBuilder.

Record t := {
  _input : option ZodType;
  _type : ProcedureType;
  _middleware : list MiddlewareFunction;
}.

Definition new (type : ProcedureType) : t :=
  {| _input := None; _type := type; _middleware := [] |}.

Definition input (this : t) (schema : ZodType) : t :=
  {| _input := Some schema; _type := _type this;
     _middleware := _middleware this |}.

Definition use (this : t) (fn : MiddlewareFunction) : t :=
  {| _input := _input this; _type := _type this;
     _middleware := _middleware this ++ [fn] |}.

Definition query (this : t) (handler : Handler) : Procedure.t :=
  {| Procedure._type := Query;
     Procedure._handler := handler;
     Procedure._middleware := Some (_middleware this);
     Procedure.input := _input this |}.

Definition mutation (this : t) (handler : Handler) : Procedure.t :=
  {| Procedure._type := Mutation;
     Procedure._handler := handler;
     Procedure._middleware := Some (_middleware this);
     Procedure.input := _input this |}.

End ProcedureBuilder.

(** * Requests

    What [handle] reads of a [Request]: the [pathname] of [new URL(req.url)],
    [req.method], and the outcome of [req.json()] ([None] when the promise is
    rejected: no body, or a body that is not JSON). *)
Record Request := {
  pathname : string;
  method : string;
  json : option Json;
}.

(** [s.split(sep)] for a separator of one character: the pieces between the
    separators, so there is always at least one piece. *)
Fixpoint split (sep : ascii) (s : string) : list string :=
  match s with
  | EmptyString => [EmptyString]
  | String c rest =>
      if decide (c = sep) then EmptyString :: split sep rest
      else match split sep rest with
           | piece :: pieces => String c piece :: pieces
           | [] => [String c EmptyString]
           end
  end.

(** [x || ""] for [x] a string or [undefined]. *)
Definition or_empty (x : option string) : string :=
  match x with
  | Some s => if decide (s = "") then "" else s
  | None => ""
  end.

(** [url.pathname.split("/").pop() || ""] *)
Definition procedure_name (req : Request) : string :=
  or_empty (last (split "/" (pathname req))).

(** [let input = emptyObject; if (req.method === "POST") { try { input =
    await req.json() } catch { return ... } }]: the input, or [None] when the
    [catch] branch is taken.  Without a [POST] the input is the module-level
    object itself, not a copy of it. *)
Definition read_input (req : Request) : option Input :=
  if decide (method req = "POST") then Parsed <$> json req
  else Some (Object emptyObject).

(** [Response.json({ error: "Invalid JSON" }, { status: 400 })] *)
Definition invalidJsonResponse : ResponseObject :=
  Response_json (JObject [("error", JString "Invalid JSON")]) (Some 400%Z).

(** [Response.json({ error: errors }, { status: 400 })], built for a failed
    [safeParse] and for a caught [ZodError]. *)
Definition validationResponse (errors : Json) : ResponseObject :=
  Response_json (JObject [("error", errors)]) (Some 400%Z).

(** [if (route.input) { const result = route.input.safeParse(input); ... }]:
    the early 400 response ([inl]), or the input that goes on ([inr]):
    [result.data] with a schema, the input itself without one. *)
Definition check_input (schema : option ZodType) (input : Input) (h : Heap)
    : Completion (ResponseObject + Input) :=
  match schema with
  | Some schema =>
      match safeParse schema input h with
      | Throw e => Throw e
      | Normal (SafeParseError errors) => Normal (inl (validationResponse errors))
      | Normal (SafeParseSuccess data) => Normal (inr data)
      end
  | None => Normal (inr input)
  end.

(** [Response.json(result)] for the handler's result; it throws a
    [TypeError] on a value without a JSON text. *)
Definition respond (result : HandlerValue) : Completion ResponseObject :=
  match result with
  | Serializable data => Normal (Response_json data None)
  | Unserializable => Throw (JsError "TypeError" "Value is not JSON serializable")
  end.

(** * The router *)
Module FastRPC.

(** A route entry [{ handler, middleware, input }], as [procedure] stores
    it. *)
Record Route := {
  handler : Handler;
  middleware : list MiddlewareFunction;
  input : option ZodType;
}.

(** [routes] is a plain object ([{}]) used as a map.  Its own properties
    are the entries stored by [procedure].  Its prototype is
    [Object.prototype], unless a registration under the name [__proto__] has
    run the inherited setter, which makes the stored entry the prototype
    ([proto]) instead of creating an own property. *)
Record Routes := {
  own : gmap string Route;
  proto : option Route;
}.

(** The property names of [Object.prototype]. *)
Definition Object_prototype_keys : list string :=
  [ "constructor"; "hasOwnProperty"; "isPrototypeOf";
    "propertyIsEnumerable"; "toLocaleString"; "toString"; "valueOf";
    "__proto__"; "__defineGetter__"; "__defineSetter__";
    "__lookupGetter__"; "__lookupSetter__" ].

(** The value of [this.routes[name]]: [undefined], a route entry, or some
    other object (a built-in function, [Object.prototype] itself, a
    handler, a middleware array, a schema), which is truthy and has no
    [handler], [middleware] or [input] property. *)
Inductive Slot : Type :=
| Undefined
| Entry (route : Route)
| Other.

Definition Object_prototype_get (name : string) : Slot :=
  if decide (name ∈ Object_prototype_keys) then Other else Undefined.

(** [routes[name]]: own property first, then the prototype chain.  Through
    an entry that has become the prototype, [handler], [middleware] and
    [input] are inherited data properties and [__proto__] reads the
    prototype itself. *)
Definition get (routes : Routes) (name : string) : Slot :=
  match own routes !! name with
  | Some route => Entry route
  | None =>
      match proto routes with
      | Some entry =>
          if decide (name = "__proto__") then Entry entry
          else if decide (name = "handler") then Other
          else if decide (name = "middleware") then Other
          else if decide (name = "input") then
            match input entry with Some _ => Other | None => Undefined end
          else Object_prototype_get name
      | None => Object_prototype_get name
      end
  end.

(** [routes[name] = entry]: an assignment to [__proto__] reaches the
    inherited setter when there is no own property of that name. *)
Definition set (routes : Routes) (name : string) (entry : Route) : Routes :=
  if decide (name = "__proto__" ∧ own routes !! name = None)
  then {| own := own routes; proto := Some entry |}
  else {| own := <[name := entry]> (own routes); proto := proto routes |}.

(** [!route] *)
Definition falsy (route : Slot) : bool :=
  match route with Undefined => true | _ => false end.

(** [route.input], [route.middleware], [route.handler] *)
Definition slot_input (route : Slot) : option ZodType :=
  match route with Entry r => input r | _ => None end.

Definition slot_middleware (route : Slot) : option (list MiddlewareFunction) :=
  match route with Entry r => Some (middleware r) | _ => None end.

Definition slot_handler (route : Slot) : option Handler :=
  match route with Entry r => Some (handler r) | _ => None end.

Record t := {
  routes : Routes;
  ctx : Context;
}.

(** The field initialisers and the constructor body: [routes = {}],
    [this.ctx = context]. *)
Definition init (context : Context) : t :=
  {| routes := {| own := ∅; proto := None |}; ctx := context |}.

(** [constructor(context: Context = {})]: without an argument the default
    [{}] is a new empty object. *)
Definition new (context : option Context) (h : Heap) : t * Heap :=
  match context with
  | Some c => (init c, h)
  | None => let '(c, h') := alloc ∅ h in (init c, h')
  end.

(** [procedure(name, handler, middleware = [], input?)] *)
Definition procedure (this : t) (name : string) (handler : Handler)
    (middleware : option (list MiddlewareFunction))
    (input : option ZodType) : t :=
  {| routes := set (routes this) name
                 {| handler := handler;
                    middleware := default [] middleware;
                    input := input |};
     ctx := ctx this |}.

(** [let ctx = { ...this.ctx }] *)
Definition working_context (this : t) (h : Heap) : Context * Heap :=
  alloc (spread h (ctx this)) h.

(** How the middleware loop ends when nothing is thrown: [return result]
    from inside the loop, or the loop is left (by [break] or at the end of
    the list) with the current [ctx]. *)
Inductive LoopExit : Type :=
| Returned (result : ResponseObject)
| Left (ctx : Context).

(** The events around one middleware call. *)
Definition span (m : MiddlewareFunction) (ctx : Context) : list Event :=
  [MiddlewareCalled (mw_name m) ctx; MiddlewareSettled (mw_name m)].

(** [for (const middleware of route.middleware) { ... }].  [next] assigns
    [ctx] and sets [nextCalled], so after the call [ctx] is the argument of
    the last call of [next], and [nextCalled] tells whether there was one. *)
Fixpoint middleware_loop (ms : list MiddlewareFunction) (ctx : Context)
    (h : Heap) : Run (Completion LoopExit) :=
  match ms with
  | [] => MkRun (Normal (Left ctx)) h []
  | middleware :: rest =>
      let out := mw_apply middleware ctx h in
      let ctx' := default ctx (last (mw_next out)) in
      let nextCalled := bool_decide (mw_next out ≠ []) in
      prepend (span middleware ctx)
        match mw_result out with
        | Throw e => MkRun (Throw e) (mw_heap out) []
        | Normal (ReturnsResponse result) =>
            MkRun (Normal (Returned result)) (mw_heap out) []
        | Normal ReturnsOther =>
            if nextCalled then middleware_loop rest ctx' (mw_heap out)
            else MkRun (Normal (Left ctx')) (mw_heap out) []
        end
  end.

(** [const result = await route.handler(input, ctx);
    return Response.json(result);] *)
Definition call_handler (handler : Handler) (input : Input) (ctx : Context)
    (h : Heap) : Run (Completion ResponseObject) :=
  let out := handler input ctx h in
  MkRun
    match h_result out with
    | Throw e => Throw e
    | Normal result => respond result
    end
    (h_heap out) [HandlerCalled input ctx].

(** The body of the [try] block of [handle]. *)
Definition handle_try (this : t) (req : Request) (h : Heap)
    : Run (Completion ResponseObject) :=
  let name := procedure_name req in
  let route := get (routes this) name in
  if falsy route then MkRun (Normal notFoundResponse) h [] else
  match read_input req with
  | None => MkRun (Normal invalidJsonResponse) h []
  | Some input =>
      match check_input (slot_input route) input h with
      | Throw e => MkRun (Throw e) h []
      | Normal (inl response) => MkRun (Normal response) h []
      | Normal (inr input) =>
          let '(ctx, h) := working_context this h in
          let chain :=
            middleware_loop (default [] (slot_middleware route)) ctx h in
          match value chain with
          | Throw e => MkRun (Throw e) (heap chain) (events chain)
          | Normal (Returned result) =>
              MkRun (Normal result) (heap chain) (events chain)
          | Normal (Left ctx) =>
              match slot_handler route with
              | None =>
                  MkRun (Throw (JsError "TypeError"
                                  "route.handler is not a function"))
                    (heap chain) (events chain)
              | Some handler =>
                  prepend (events chain)
                    (call_handler handler input ctx (heap chain))
              end
          end
      end
  end.

(** The [catch] clause of [handle], applied to the outcome of the [try]
    block. *)
Definition catch (r : Run (Completion ResponseObject))
    : Run ResponseObject :=
  match value r with
  | Normal response => MkRun response (heap r) (events r)
  | Throw (ZodError errors) =>
      MkRun (validationResponse errors) (heap r) (events r)
  | Throw e => MkRun errorResponse (heap r) (events r ++ [ConsoleError e])
  end.

(** [async handle(req)] *)
Definition handle (this : t) (req : Request) (h : Heap)
    : Run ResponseObject :=
  catch (handle_try this req h).

End FastRPC.

(** * The builder entry point *)
Module FastRPCBuilder.

Record t := { context : Context }.

(** [constructor(context: Context = {})] *)
Definition new (context : option Context) (h : Heap) : t * Heap :=
  match context with
  | Some c => ({| context := c |}, h)
  | None => let '(c, h') := alloc ∅ h in ({| context := c |}, h')
  end.

(** [create().procedure.input], [.query], [.mutation], [.use] *)
Definition procedure_input (schema : ZodType) : ProcedureBuilder.t :=
  ProcedureBuilder.input (ProcedureBuilder.new Query) schema.

Definition procedure_query (handler : Handler) : Procedure.t :=
  ProcedureBuilder.query (ProcedureBuilder.new Query) handler.

Definition procedure_mutation (handler : Handler) : Procedure.t :=
  ProcedureBuilder.mutation (ProcedureBuilder.new Mutation) handler.

Definition procedure_use (fn : MiddlewareFunction) : ProcedureBuilder.t :=
  ProcedureBuilder.use (ProcedureBuilder.new Query) fn.

(** One step of the loop of [router]:
    [rpc.procedure(name, procedure._handler, procedure._middleware || [],
    procedure.input)]. *)
Definition register (rpc : FastRPC.t) (entry : string * Procedure.t)
    : FastRPC.t :=
  FastRPC.procedure rpc entry.1 (Procedure._handler entry.2)
    (Some (default [] (Procedure._middleware entry.2)))
    (Procedure.input entry.2).

(** [create().router(procedures)]; [procedures] is given as
    [Object.entries] lists it. *)
Definition router (self : t) (procedures : list (string * Procedure.t))
    : FastRPC.t :=
  foldl register (FastRPC.init (context self)) procedures.

End FastRPCBuilder.

(** * The client *)
Module Client.

(** The second argument of [fetch].  [body] is the value whose JSON text
    is sent. *)
Record RequestInit := {
  method : string;
  headers : list (string * string);
  body : option Json;
}.

(** What the client reads of the response: [ok], [status] and the outcome
    of [json()]. *)
Record FetchResponse := {
  ok : bool;
  status : Z;
  json : Completion Json;
}.

(** The network, as the client sees it: [fetch(url, init)] resolves to a
    response or rejects. *)
Definition Fetch := string → RequestInit → Completion FetchResponse.

(** A call of a client method: the requests it issued and its outcome. *)
Record Call := {
  issued : list (string * RequestInit);
  outcome : Completion Json;
}.

(** [new Error(`HTTP error! status: ${response.status}`)] *)
Definition http_error (status : Z) : Exn :=
  JsError "Error" ("HTTP error! status: " +:+ pretty status).

(** The rest of both methods once [fetch] has settled. *)
Definition receive (response : Completion FetchResponse) : Completion Json :=
  match response with
  | Throw e => Throw e
  | Normal response =>
      if negb (ok response) then Throw (http_error (status response))
      else json response
  end.

(** The object returned by the proxy's [get] trap for a string [name]. *)
Record Methods := {
  query : option Json → Fetch → Call;
  mutation : option Json → Fetch → Call;
}.

(** [createClient(baseUrl)[name]]; an absent [input] is [None], and
    [input ?? {}] replaces [undefined] and [null]. *)
Definition createClient (baseUrl : string) (name : string) : Methods :=
  {| query := λ input fetch,
       let url := baseUrl +:+ "/" +:+ name in
       let init := {| method := "GET"; headers := []; body := None |} in
       {| issued := [(url, init)]; outcome := receive (fetch url init) |};
     mutation := λ input fetch,
       let url := baseUrl +:+ "/" +:+ name in
       let init :=
         {| method := "POST";
            headers := [("Content-Type", "application/json")];
            body := Some match input with
                         | None | Some JNull => JObject []
                         | Some value => value
                         end |} in
       {| issued := [(url, init)]; outcome := receive (fetch url init) |} |}.

End Client.

(** * Vocabulary of the properties *)

(** The names under which [procedure] has stored an entry: an own property,
    or the entry that a registration under [__proto__] made the prototype. *)
Definition registered (routes : FastRPC.Routes) (name : string) : Prop :=
  is_Some (FastRPC.own routes !! name)
  ∨ (name = "__proto__" ∧ is_Some (FastRPC.proto routes)).

(** The names of the middleware called, and the arguments of the handler
    calls, in the order of the log. *)
Definition middleware_calls (evs : list Event) : list string :=
  omap (λ e, match e with MiddlewareCalled name _ => Some name | _ => None end)
    evs.

Definition handler_calls (evs : list Event) : list (Input * Context) :=
  omap (λ e, match e with HandlerCalled i c => Some (i, c) | _ => None end)
    evs.

Definition is_middleware_event (e : Event) : bool :=
  match e with
  | MiddlewareCalled _ _ | MiddlewareSettled _ => true
  | _ => false
  end.

(** The calls of a list of middleware, each with the context it received,
    one after the other. *)
Definition spans (ms : list MiddlewareFunction) (cs : list Context)
    : list Event :=
  concat (zip_with FastRPC.span ms cs).

(** The chain advances through all of [ms], started with [ctx] on heap [h]:
    every one of them, called in turn, called [next] and settled with a value
    that is not a [Response].  The run carries the context and heap that the
    middleware after [ms] (or the handler) would start from. *)
Fixpoint advance (ms : list MiddlewareFunction) (ctx : Context) (h : Heap)
    : option (Run Context) :=
  match ms with
  | [] => Some (MkRun ctx h [])
  | m :: rest =>
      let out := mw_apply m ctx h in
      match mw_result out, last (mw_next out) with
      | Normal ReturnsOther, Some ctx' =>
          prepend (FastRPC.span m ctx) <$> advance rest ctx' (mw_heap out)
      | _, _ => None
      end
  end.

(** What the [catch] clause answers to a thrown value, and what it logs. *)
Definition caught_response (e : Exn) : ResponseObject :=
  match e with
  | ZodError errors => validationResponse errors
  | JsError _ _ => errorResponse
  end.

Definition caught_log (e : Exn) : list Event :=
  match e with
  | ZodError _ => []
  | JsError _ _ => [ConsoleError e]
  end.

(** Name resolution in the words of the specification: the last non-empty
    segment of the path (the empty name when there is none). *)
Definition last_nonempty_segment (path : string) : string :=
  default "" (last (filter (λ s, s ≠ "") (split "/" path))).

(** Whether the character occurs in the string. *)
Fixpoint has_char (c : ascii) (s : string) : bool :=
  match s with
  | EmptyString => false
  | String c' rest => bool_decide (c' = c) || has_char c rest
  end.

(** A callback leaves the object at [l] alone unless it is handed [l] as its
    context, and a middleware does not pass [l] on. *)
Definition middleware_keeps (l : loc) (m : MiddlewareFunction) : Prop :=
  ∀ c h, c ≠ l → is_Some (h !! l) →
    mw_heap (mw_apply m c h) !! l = h !! l ∧ l ∉ mw_next (mw_apply m c h).

Definition handler_keeps (l : loc) (f : Handler) : Prop :=
  ∀ i c h, c ≠ l → is_Some (h !! l) → h_heap (f i c h) !! l = h !! l.

(** The first call made once the chain has gone through a prefix of the
    list: the next middleware, or the handler when none is left. *)
Definition next_call (post : list MiddlewareFunction) (input : Input)
    (ctx : Context) : Event :=
  match post with
  | m :: _ => MiddlewareCalled (mw_name m) ctx
  | [] => HandlerCalled input ctx
  end.

(** * The routers of the test suite *)
Module Scenario.

(** [initFastRPC = new FastRPCBuilder()]: the base context is an empty
    object, created after [emptyObject] when the module is loaded.  [heap0]
    is the heap at that point. *)
Definition base : Context := 2%positive.
Definition heap0 : Heap := <[base := ∅]> {[ emptyObject := ∅ ]}.
Definition initFastRPC : FastRPCBuilder.t := {| FastRPCBuilder.context := base |}.

Fixpoint field (key : string) (fields : list (string * Json)) : option Json :=
  match fields with
  | [] => None
  | (k, v) :: rest => if decide (k = key) then Some v else field key rest
  end.

Definition required_issue (key : string) : Json :=
  JObject [("code", JString "invalid_type"); ("expected", JString "string");
           ("received", JString "undefined");
           ("path", JArray [JString key]); ("message", JString "Required")].

(** A property that holds a primitive, as a JSON value. *)
Definition primitive (v : Val) : option Json :=
  match v with
  | VBool b => Some (JBool b)
  | VNumber n => Some (JNumber n)
  | VString s => Some (JString s)
  | VUndefined | VRef _ => None
  end.

(** [input[key]], for the property values used in the tests. *)
Definition input_property (input : Input) (h : Heap) (key : string)
    : option Json :=
  match input with
  | Parsed (JObject fields) => field key fields
  | Parsed _ => None
  | Object l =>
      match h !! l with
      | Some o => match o !! key with Some v => primitive v | None => None end
      | None => None
      end
  end.

(** [z.object({ key: z.string() })]: unknown keys are stripped, and the
    data is a new object. *)
Definition object_with_string (key : string) : ZodType :=
  {| safeParse := λ input h,
       match input_property input h key with
       | Some (JString s) =>
           Normal (SafeParseSuccess (Parsed (JObject [(key, JString s)])))
       | _ => Normal (SafeParseError (JArray [required_issue key]))
       end |}.

(** A schema whose [safeParse] throws. *)
Definition throwing_schema : ZodType :=
  {| safeParse := λ _ _,
       Throw (JsError "Error" "Async refinement encountered during synchronous parse operation") |}.

Definition returns (data : Json) : Handler :=
  λ _ _ h, {| h_heap := h; h_result := Normal (Serializable data) |}.

(** [({ id }) => ({ id, name: "Test User" })] *)
Definition getUser : Handler :=
  λ input _ h,
    {| h_heap := h;
       h_result :=
         match input with
         | Parsed (JObject _) | Object _ =>
             Normal (Serializable
                       (JObject [("id",
                                  default JNull (input_property input h "id"));
                                 ("name", JString "Test User")]))
         | _ => Throw (JsError "TypeError" "Cannot destructure property")
         end |}.

(** [({ name }) => ({ id: "1", name })] *)
Definition createUser : Handler :=
  λ input _ h,
    {| h_heap := h;
       h_result :=
         match input with
         | Parsed (JObject _) | Object _ =>
             Normal (Serializable
                       (JObject [("id", JString "1");
                                 ("name",
                                  default JNull
                                    (input_property input h "name"))]))
         | _ => Throw (JsError "TypeError" "Cannot destructure property")
         end |}.

(** [(input) => { const seen = input.seen === true; input.seen = true;
    return { seen }; }]: a handler that writes to the object it is given. *)
Definition visit : Handler :=
  λ input _ h,
    {| h_heap :=
         match input with
         | Object l => <[l := <["seen" := VBool true]> (spread h l)]> h
         | Parsed _ => h
         end;
       h_result :=
         Normal (Serializable
                   (JObject [("seen",
                              default (JBool false)
                                (input_property input h "seen"))])) |}.

(** [() => { throw new Error("User not found") }] *)
Definition userNotFound : Handler :=
  λ _ _ h, {| h_heap := h; h_result := Throw (JsError "Error" "User not found") |}.

(** A handler that reports whether [ctx.x] is set. *)
Definition truthy (v : option Val) : bool :=
  match v with
  | Some (VBool b) => b
  | Some (VNumber n) => negb (n =? 0)%Z
  | Some (VString s) => negb (String.eqb s "")
  | Some (VRef _) => true
  | Some VUndefined | None => false
  end.

Definition property (h : Heap) (c : Context) (key : string) : option Val :=
  h !! c ≫= (λ o : Obj, o !! key).

Definition reportX : Handler :=
  λ _ ctx h,
    {| h_heap := h;
       h_result := Normal (Serializable (JBool (truthy (property h ctx "x")))) |}.

Definition appRouter : FastRPC.t :=
  FastRPCBuilder.router initFastRPC
    [ ("getUser",
       ProcedureBuilder.query
         (FastRPCBuilder.procedure_input (object_with_string "id")) getUser);
      ("createUser",
       ProcedureBuilder.mutation
         (FastRPCBuilder.procedure_input (object_with_string "name")) createUser);
      ("status",
       FastRPCBuilder.procedure_query
         (returns (JObject [("status", JString "ok")]))) ].

(** [next({ ctx: { ...opts.ctx, key: v } })] *)
Definition next_with (key : string) (v : Val) (ctx : Context) (h : Heap)
    : MiddlewareOutcome :=
  let '(c, h') := alloc (<[key := v]> (spread h ctx)) h in
  {| mw_heap := h'; mw_next := [c]; mw_result := Normal ReturnsOther |}.

Definition unauthorized : ResponseObject :=
  Response_json (JObject [("error", JString "Unauthorized")]) (Some 401%Z).

Definition addTimestamp : MiddlewareFunction :=
  {| mw_name := "timestamp";
     mw_apply := next_with "timestamp" (VNumber 1700000000000) |}.

Definition isAdmin : MiddlewareFunction :=
  {| mw_name := "admin";
     mw_apply := λ ctx h,
       if truthy (property h ctx "isAdmin")
       then next_with "isAdmin" (VBool true) ctx h
       else {| mw_heap := h; mw_next := [];
               mw_result := Normal (ReturnsResponse unauthorized) |} |}.

(** [next({ ctx: { ...opts.ctx, x: 1 } })] *)
Definition setX : MiddlewareFunction :=
  {| mw_name := "setX"; mw_apply := next_with "x" (VNumber 1) |}.

(** [opts.ctx.x = 1; return opts.next(opts)]: a write to the object that was
    handed in. *)
Definition writeX : MiddlewareFunction :=
  {| mw_name := "writeX";
     mw_apply := λ ctx h,
       {| mw_heap := <[ctx := <["x" := VNumber 1]> (spread h ctx)]> h;
          mw_next := [ctx]; mw_result := Normal ReturnsOther |} |}.

(** [await opts.next(opts); return Response.json(..., { status: 401 })] *)
Definition denyAfterNext : MiddlewareFunction :=
  {| mw_name := "deny";
     mw_apply := λ ctx h,
       {| mw_heap := h; mw_next := [ctx];
          mw_result := Normal (ReturnsResponse unauthorized) |} |}.

(** [async () => {}]: neither calls [next] nor returns a response. *)
Definition silent : MiddlewareFunction :=
  {| mw_name := "silent";
     mw_apply := λ ctx h,
       {| mw_heap := h; mw_next := []; mw_result := Normal ReturnsOther |} |}.

(** [async () => { throw new Error("boom") }] *)
Definition failing : MiddlewareFunction :=
  {| mw_name := "failing";
     mw_apply := λ ctx h,
       {| mw_heap := h; mw_next := [];
          mw_result := Throw (JsError "Error" "boom") |} |}.

Definition chainRouter (ms : list MiddlewareFunction) (handler : Handler)
    : FastRPC.t :=
  FastRPCBuilder.router initFastRPC
    [ ("adminOnly",
       ProcedureBuilder.query
         (foldl ProcedureBuilder.use (ProcedureBuilder.new Query) ms)
         handler) ].

(** The entry that [chainRouter] stores under [adminOnly]. *)
Definition chainRoute (ms : list MiddlewareFunction) (handler : Handler)
    : FastRPC.Route :=
  {| FastRPC.handler := handler; FastRPC.middleware := ms;
     FastRPC.input := None |}.

Definition GET (path : string) : Request :=
  {| pathname := path; method := "GET"; json := None |}.

Definition POST (path : string) (body : option Json) : Request :=
  {| pathname := path; method := "POST"; json := body |}.

Definition adminOnly : Request := GET "/adminOnly".

(** The router of the test "should execute middleware chain". *)
Definition adminRouter : FastRPC.t :=
  chainRouter [addTimestamp; isAdmin] (returns (JString "admin data")).

Definition denyRouter : FastRPC.t :=
  chainRouter [setX; denyAfterNext; failing] reportX.

Definition silentRouter : FastRPC.t :=
  chainRouter [setX; silent; failing] reportX.

Definition throwingRouter : FastRPC.t := chainRouter [setX] userNotFound.

Definition failingRouter : FastRPC.t :=
  chainRouter [setX; failing] userNotFound.

Definition contextRouter : FastRPC.t := chainRouter [writeX; setX] reportX.

(** A router with one procedure without schema, whose handler is [visit]. *)
Definition visitRouter : FastRPC.t :=
  FastRPCBuilder.router initFastRPC
    [("visit", FastRPCBuilder.procedure_query visit)].

Definition visitRoute : FastRPC.Route :=
  {| FastRPC.handler := visit; FastRPC.middleware := [];
     FastRPC.input := None |}.

(** The entries of [appRouter] under [createUser] and [status]. *)
Definition createUserRoute : FastRPC.Route :=
  {| FastRPC.handler := createUser; FastRPC.middleware := [];
     FastRPC.input := Some (object_with_string "name") |}.

Definition statusRoute : FastRPC.Route :=
  {| FastRPC.handler := returns (JObject [("status", JString "ok")]);
     FastRPC.middleware := []; FastRPC.input := None |}.

Definition invalidUser : Json := JObject [("invalid", JString "input")].

(** A [fetch] for the tests of the client: it hands the request for
    [http://localhost/...] to [handle] of the router and reports the
    response, as a server on that origin would. *)
Definition localFetch (this : FastRPC.t) (h : Heap) : Client.Fetch :=
  λ url init,
    let req :=
      {| pathname := String.substring 16 (String.length url - 16) url;
         method := Client.method init;
         json := Client.body init |} in
    let response := constructed (value (FastRPC.handle this req h)) in
    Normal
      {| Client.ok :=
           bool_decide (200 ≤ status response ≤ 299)%Z;
         Client.status := status response;
         Client.json :=
           match body response with
           | JsonBody data => Normal data
           | TextBody _ => Throw (JsError "SyntaxError" "Unexpected token")
           end |}.

Definition testUser : Json :=
  JObject [("name", JString "Test User"); ("extra", JNumber 1)].

End Scenario.

(** * Name resolution *)

Lemma or_empty_default x : or_empty x = default "" x.
Proof. destruct x as [s|]; simpl; [|done]. by case_decide; subst. Qed.

Lemma split_nonempty sep s : split sep s ≠ [].
Proof.
  destruct s as [|c s]; simpl; [done|].
  case_decide; [done|]. by destruct (split sep s).
Qed.

Lemma split_app sep p s :
  split sep (p +:+ String sep s) = split sep p ++ split sep s.
Proof.
  induction p as [|c p IH]; simpl.
  - by rewrite decide_True.
  - rewrite IH. case_decide; [done|].
    pose proof (split_nonempty sep p). by destruct (split sep p).
Qed.

Lemma split_no_sep sep s : has_char sep s = false → split sep s = [s].
Proof.
  induction s as [|c s IH]; simpl; [done|].
  intros [Hc Hs]%orb_false_elim. apply bool_decide_eq_false in Hc.
  rewrite decide_False by done. by rewrite IH.
Qed.

Lemma last_split_app sep p s :
  has_char sep s = false →
  last (split sep (p +:+ String sep s)) = Some s.
Proof.
  intros Hs. rewrite split_app, (split_no_sep _ _ Hs).
  by rewrite last_snoc.
Qed.

Lemma last_split_suffix sep s t :
  last (split sep s) = Some t →
  has_char sep t = false ∧ (s = t ∨ ∃ p, s = p +:+ String sep t).
Proof.
  revert t. induction s as [|c s IH]; intros t; simpl.
  - intros [= <-]. auto.
  - pose proof (split_nonempty sep s) as Hne.
    case_decide as Hc.
    + subst c. destruct (split sep s) as [|piece pieces] eqn:Hsplit; [done|].
      rewrite last_cons_cons. intros Hlast.
      destruct (IH _ Hlast) as [Ht [->|[p ->]]]; split; try done; right.
      * by exists "".
      * by exists (String sep p).
    + destruct (split sep s) as [|piece pieces] eqn:Hsplit; [done|].
      destruct pieces as [|piece' pieces].
      * intros [= <-]. destruct (IH piece eq_refl) as [Hpiece [->|[p ->]]].
        -- simpl. rewrite Hpiece, bool_decide_eq_false_2 by done. auto.
        -- rewrite split_app, (split_no_sep _ _ Hpiece) in Hsplit.
           apply (f_equal length) in Hsplit. rewrite length_app in Hsplit.
           simpl in Hsplit. pose proof (split_nonempty sep p).
           destruct (split sep p); [done|]. simpl in Hsplit. lia.
      * rewrite last_cons_cons. intros Hlast.
        rewrite <-(last_cons_cons piece) in Hlast.
        destruct (IH _ Hlast) as [Ht [->|[p ->]]].
        -- by rewrite (split_no_sep _ _ Ht) in Hsplit.
        -- split; [done|]. right. by exists (String c p).
Qed.

(** The name that [handle] looks up has no [/] in it, and it is the whole
    path or what follows the last [/] of the path. *)
Lemma procedure_name_suffix req :
  has_char "/" (procedure_name req) = false
  ∧ (pathname req = procedure_name req
     ∨ ∃ prefix, pathname req = prefix +:+ "/" +:+ procedure_name req).
Proof.
  unfold procedure_name. rewrite or_empty_default.
  destruct (last (split "/" (pathname req))) as [t|] eqn:Hlast.
  - by apply last_split_suffix.
  - apply last_None in Hlast. by apply split_nonempty in Hlast.
Qed.

(** C5, as amended: the procedure name is the text after the last [/] of the
    path, whatever comes before it: for every prefix and every segment
    without a [/] (the empty segment included, which is the name of a path
    ending in [/]), a request for [prefix/segment] resolves to [segment], and
    [handle] answers it exactly as it answers the request for [/segment]. *)
Theorem procedure_name_last_segment (prefix segment : string) :
  has_char "/" segment = false →
  (∀ m body,
     procedure_name
       {| pathname := prefix +:+ "/" +:+ segment; method := m; json := body |}
     = segment)
  ∧ (∀ this m body h,
       FastRPC.handle this
         {| pathname := prefix +:+ "/" +:+ segment; method := m; json := body |} h
       = FastRPC.handle this
           {| pathname := "/" +:+ segment; method := m; json := body |} h).
Proof.
  intros Hseg.
  assert (∀ pre m body,
    procedure_name
      {| pathname := pre +:+ "/" +:+ segment; method := m; json := body |}
    = segment) as Hname.
  { intros pre m body. unfold procedure_name; simpl.
    change ("/" +:+ segment) with (String "/" segment).
    by rewrite last_split_app, or_empty_default. }
  split; [apply Hname|].
  intros this m body h. unfold FastRPC.handle, FastRPC.handle_try.
  rewrite Hname. change ("/" +:+ segment) with ("" +:+ "/" +:+ segment).
  by rewrite Hname.
Qed.

Lemma procedure_name_last_segment_witness :
  has_char "/" "status" = false
  ∧ procedure_name (Scenario.GET "/api/v1/status") = "status"
  ∧ FastRPC.handle Scenario.appRouter (Scenario.GET "/api/v1/status") Scenario.heap0
    = FastRPC.handle Scenario.appRouter (Scenario.GET "/status") Scenario.heap0.
Proof.
  pose proof (procedure_name_last_segment "/api/v1" "status" eq_refl) as [H1 H2].
  split; [reflexivity|].
  split; [apply (H1 "GET" None)|apply (H2 Scenario.appRouter "GET" None)].
Defined.

(** C5, as stated, fails: for the path [/status/] the last non-empty segment
    is [status], but the code resolves the empty name, so the request is
    answered 404 by a router that has [status] registered. *)
Lemma procedure_name_not_last_nonempty_segment :
  last_nonempty_segment (pathname (Scenario.GET "/status/")) = "status"
  ∧ procedure_name (Scenario.GET "/status/") = ""
  ∧ procedure_name (Scenario.GET "/status/")
    ≠ last_nonempty_segment (pathname (Scenario.GET "/status/"))
  ∧ value (FastRPC.handle Scenario.appRouter (Scenario.GET "/status/")
             Scenario.heap0)
    = notFoundResponse.
Proof. repeat split; done. Qed.

(** * The route table *)

Lemma get_set_eq routes name entry :
  FastRPC.get (FastRPC.set routes name entry) name = FastRPC.Entry entry.
Proof.
  unfold FastRPC.get, FastRPC.set.
  case_decide as Hname; simpl.
  - destruct Hname as [-> ->]. done.
  - by rewrite lookup_insert_eq.
Qed.

Lemma get_procedure this name handler middleware input :
  FastRPC.get (FastRPC.routes (FastRPC.procedure this name handler middleware input)) name
  = FastRPC.Entry {| FastRPC.handler := handler;
                     FastRPC.middleware := default [] middleware;
                     FastRPC.input := input |}.
Proof. apply get_set_eq. Qed.

Lemma registered_init context name :
  ¬ registered (FastRPC.routes (FastRPC.init context)) name.
Proof.
  intros [[? H]|[_ [? H]]]; simpl in H; [|done].
  by rewrite lookup_empty in H.
Qed.

Lemma registered_set routes name entry name' :
  registered (FastRPC.set routes name entry) name'
  ↔ name' = name ∨ registered routes name'.
Proof.
  unfold registered, FastRPC.set. case_decide as Hname; simpl.
  - destruct Hname as [-> Hnone]. split.
    + intros [?|[-> _]]; auto.
    + intros [->|[?|[-> ?]]]; eauto.
  - rewrite lookup_insert. split.
    + intros [H|?]; [|by auto]. case_decide; subst; auto.
    + intros [->|[H|?]]; [| |by auto].
      * left. by rewrite decide_True.
      * left. case_decide; eauto.
Qed.

(** A lookup yields a route entry exactly for the registered names. *)
Lemma get_entry_registered routes name :
  (∃ route, FastRPC.get routes name = FastRPC.Entry route)
  ↔ registered routes name.
Proof.
  unfold registered, FastRPC.get, FastRPC.Object_prototype_get. split.
  - intros [route H]. destruct (FastRPC.own routes !! name); [by eauto|].
    destruct (FastRPC.proto routes) as [entry|];
      repeat case_decide; subst; eauto; try done.
    by destruct (FastRPC.input entry).
  - intros [[route ->]|[-> [entry Hentry]]]; [by eauto|].
    rewrite Hentry. destruct (FastRPC.own routes !! "__proto__"); eauto.
Qed.

(** Where a lookup finds nothing: the name is not registered, no entry has
    become the prototype, and [Object.prototype] has no such property. *)
Lemma get_undefined routes name :
  ¬ registered routes name →
  FastRPC.proto routes = None →
  name ∉ FastRPC.Object_prototype_keys →
  FastRPC.get routes name = FastRPC.Undefined.
Proof.
  intros Hreg Hproto Hkeys. unfold FastRPC.get, FastRPC.Object_prototype_get.
  destruct (FastRPC.own routes !! name) eqn:Hown.
  - destruct Hreg. left. eauto.
  - rewrite Hproto. by rewrite decide_False.
Qed.

(** An inherited property is found for a name that nobody registered. *)
Lemma get_inherited routes name :
  ¬ registered routes name →
  name ∈ FastRPC.Object_prototype_keys →
  FastRPC.get routes name = FastRPC.Other.
Proof.
  intros Hreg Hkeys. unfold FastRPC.get, FastRPC.Object_prototype_get.
  destruct (FastRPC.own routes !! name) eqn:Hown.
  { destruct Hreg. left. eauto. }
  destruct (FastRPC.proto routes) as [entry|] eqn:Hproto.
  - assert (name ≠ "__proto__") by (intros ->; destruct Hreg; right; eauto).
    assert (name ≠ "handler" ∧ name ≠ "middleware" ∧ name ≠ "input")
      as (?&?&?).
    { repeat split; intros ->; revert Hkeys;
        by apply (bool_decide_unpack _). }
    by rewrite !decide_False, decide_True by done.
  - by rewrite decide_True.
Qed.

(** * Runs and their logs *)

Lemma prepend_nil {A} (r : Run A) : prepend [] r = r.
Proof. by destruct r. Qed.

Lemma prepend_prepend {A} evs1 evs2 (r : Run A) :
  prepend evs1 (prepend evs2 r) = prepend (evs1 ++ evs2) r.
Proof. unfold prepend; simpl. by rewrite (assoc (++)). Qed.

Lemma middleware_calls_app evs1 evs2 :
  middleware_calls (evs1 ++ evs2) = middleware_calls evs1 ++ middleware_calls evs2.
Proof. apply omap_app. Qed.

Lemma handler_calls_app evs1 evs2 :
  handler_calls (evs1 ++ evs2) = handler_calls evs1 ++ handler_calls evs2.
Proof. apply omap_app. Qed.

Lemma spans_cons m ms c cs :
  spans (m :: ms) (c :: cs) = FastRPC.span m c ++ spans ms cs.
Proof. done. Qed.

Lemma middleware_calls_spans ms cs :
  length cs = length ms → middleware_calls (spans ms cs) = mw_name <$> ms.
Proof.
  revert cs. induction ms as [|m ms IH]; intros [|c cs] Hlen; try done.
  injection Hlen as Hlen.
  by rewrite spans_cons, middleware_calls_app, IH.
Qed.

Lemma handler_calls_spans ms cs : handler_calls (spans ms cs) = [].
Proof.
  revert cs. induction ms as [|m ms IH]; intros [|c cs]; try done.
  by rewrite spans_cons, handler_calls_app, IH.
Qed.

Lemma caught_log_calls e :
  middleware_calls (caught_log e) = [] ∧ handler_calls (caught_log e) = [].
Proof. by destruct e. Qed.

(** The [catch] clause in terms of what it answers and logs. *)
Lemma catch_throw e h evs :
  FastRPC.catch (MkRun (Throw e) h evs)
  = MkRun (caught_response e) h (evs ++ caught_log e).
Proof. destruct e; simpl; unfold FastRPC.catch; simpl; by rewrite ?app_nil_r. Qed.

Lemma catch_normal r h evs :
  FastRPC.catch (MkRun (Normal r) h evs) = MkRun r h evs.
Proof. done. Qed.

Lemma events_catch r :
  events (FastRPC.catch r)
  = events r ++ match value r with Throw e => caught_log e | Normal _ => [] end.
Proof.
  destruct r as [[resp|e] h evs]; [by rewrite catch_normal, app_nil_r|].
  by rewrite catch_throw.
Qed.

Lemma heap_catch r : heap (FastRPC.catch r) = heap r.
Proof. by destruct r as [[resp|[]] h evs]. Qed.

(** * The middleware chain *)

(** A chain that advances through a prefix goes on with the rest of the
    list from the context and heap the prefix leaves. *)
Lemma loop_advance pre post ctx h run :
  advance pre ctx h = Some run →
  FastRPC.middleware_loop (pre ++ post) ctx h
  = prepend (events run) (FastRPC.middleware_loop post (value run) (heap run)).
Proof.
  revert ctx h run. induction pre as [|m pre IH]; intros ctx h run Hadv.
  - simplify_eq/=. by rewrite prepend_nil.
  - simpl in *.
    destruct (mw_result (mw_apply m ctx h)) as [[resp|]|e]; try done.
    destruct (last (mw_next (mw_apply m ctx h))) as [ctx'|] eqn:Hlast; [|done].
    destruct (advance pre ctx' _) as [run'|] eqn:Hrest; simplify_eq/=.
    rewrite bool_decide_eq_true_2.
    2:{ intros Hnil. by rewrite Hnil in Hlast. }
    rewrite (IH _ _ _ Hrest). by rewrite prepend_prepend.
Qed.

Lemma advance_spans pre ctx h run :
  advance pre ctx h = Some run →
  ∃ cs, length cs = length pre ∧ events run = spans pre cs
        ∧ head (cs ++ [value run]) = Some ctx.
Proof.
  revert ctx h run. induction pre as [|m pre IH]; intros ctx h run Hadv.
  - simplify_eq/=. by exists [].
  - simpl in *.
    destruct (mw_result (mw_apply m ctx h)) as [[resp|]|e]; try done.
    destruct (last (mw_next (mw_apply m ctx h))) as [ctx'|]; [|done].
    destruct (advance pre ctx' _) as [run'|] eqn:Hrest; simplify_eq/=.
    destruct (IH _ _ _ Hrest) as (cs & Hlen & Hevs & _).
    exists (ctx :: cs). simpl. rewrite Hlen, Hevs. done.
Qed.

Lemma advance_calls pre ctx h run :
  advance pre ctx h = Some run →
  middleware_calls (events run) = mw_name <$> pre
  ∧ handler_calls (events run) = [].
Proof.
  intros (cs & Hlen & -> & _)%advance_spans.
  by rewrite middleware_calls_spans, handler_calls_spans.
Qed.

(** * The dispatcher *)

Lemma handle_not_found this req h :
  FastRPC.get (FastRPC.routes this) (procedure_name req) = FastRPC.Undefined →
  FastRPC.handle this req h = MkRun notFoundResponse h [].
Proof. intros Hget. unfold FastRPC.handle, FastRPC.handle_try. by rewrite Hget. Qed.

(** A request for a registered procedure whose input was read and accepted
    enters the chain with a copy of the base context, and goes on to the
    handler when the loop is left. *)
Lemma handle_try_route this req h route raw inp :
  FastRPC.get (FastRPC.routes this) (procedure_name req) = FastRPC.Entry route →
  read_input req = Some raw →
  check_input (FastRPC.input route) raw h = Normal (inr inp) →
  FastRPC.handle_try this req h
  = let chain :=
      FastRPC.middleware_loop (FastRPC.middleware route)
        (FastRPC.working_context this h).1 (FastRPC.working_context this h).2 in
    match value chain with
    | Throw e => MkRun (Throw e) (heap chain) (events chain)
    | Normal (FastRPC.Returned result) =>
        MkRun (Normal result) (heap chain) (events chain)
    | Normal (FastRPC.Left ctx) =>
        prepend (events chain)
          (FastRPC.call_handler (FastRPC.handler route) inp ctx (heap chain))
    end.
Proof.
  intros Hget Hread Hcheck. unfold FastRPC.handle_try.
  rewrite Hget, Hread; simpl. rewrite Hcheck.
  by destruct (FastRPC.working_context this h).
Qed.

(** Up to the middleware [m] that follows a prefix through which the chain
    advances. *)
Lemma handle_try_reach this req h route raw inp pre m post run :
  FastRPC.get (FastRPC.routes this) (procedure_name req) = FastRPC.Entry route →
  read_input req = Some raw →
  check_input (FastRPC.input route) raw h = Normal (inr inp) →
  FastRPC.middleware route = pre ++ m :: post →
  advance pre (FastRPC.working_context this h).1
    (FastRPC.working_context this h).2 = Some run →
  FastRPC.handle_try this req h
  = let chain :=
      prepend (events run)
        (FastRPC.middleware_loop (m :: post) (value run) (heap run)) in
    match value chain with
    | Throw e => MkRun (Throw e) (heap chain) (events chain)
    | Normal (FastRPC.Returned result) =>
        MkRun (Normal result) (heap chain) (events chain)
    | Normal (FastRPC.Left ctx) =>
        prepend (events chain)
          (FastRPC.call_handler (FastRPC.handler route) inp ctx (heap chain))
    end.
Proof.
  intros Hget Hread Hcheck Hms Hadv.
  rewrite (handle_try_route _ _ _ _ _ _ Hget Hread Hcheck), Hms.
  by rewrite (loop_advance _ _ _ _ _ Hadv).
Qed.

(** C2: when the chain of a registered procedure reaches a middleware that
    returns a [Response], [handle] returns that response; no later
    middleware and no handler is called.  Nothing is assumed about the calls
    this middleware made to [next], so the response wins over advancing. *)
Theorem middleware_response_is_returned
    this req h route raw inp pre m post run r :
  FastRPC.get (FastRPC.routes this) (procedure_name req) = FastRPC.Entry route →
  read_input req = Some raw →
  check_input (FastRPC.input route) raw h = Normal (inr inp) →
  FastRPC.middleware route = pre ++ m :: post →
  advance pre (FastRPC.working_context this h).1
    (FastRPC.working_context this h).2 = Some run →
  mw_result (mw_apply m (value run) (heap run)) = Normal (ReturnsResponse r) →
  FastRPC.handle this req h
  = MkRun r (mw_heap (mw_apply m (value run) (heap run)))
      (events run ++ FastRPC.span m (value run))
  ∧ middleware_calls (events (FastRPC.handle this req h))
    = mw_name <$> (pre ++ [m])
  ∧ handler_calls (events (FastRPC.handle this req h)) = [].
Proof.
  intros Hget Hread Hcheck Hms Hadv Hres.
  assert (FastRPC.handle this req h
          = MkRun r (mw_heap (mw_apply m (value run) (heap run)))
              (events run ++ FastRPC.span m (value run))) as ->.
  { unfold FastRPC.handle.
    rewrite (handle_try_reach _ _ _ _ _ _ _ _ _ _ Hget Hread Hcheck Hms Hadv).
    simpl. by rewrite Hres. }
  destruct (advance_calls _ _ _ _ Hadv) as [Hmw Hh].
  split; [done|]. simpl.
  rewrite middleware_calls_app, handler_calls_app, Hmw, Hh, fmap_app. done.
Qed.

Lemma middleware_response_is_returned_witness :
  mw_next (mw_apply Scenario.denyAfterNext 4%positive Scenario.heap0)
    = [4%positive]
  ∧ value (FastRPC.handle Scenario.denyRouter Scenario.adminOnly Scenario.heap0)
    = Scenario.unauthorized
  ∧ middleware_calls
      (events (FastRPC.handle Scenario.denyRouter Scenario.adminOnly
                 Scenario.heap0))
    = ["setX"; "deny"]
  ∧ handler_calls
      (events (FastRPC.handle Scenario.denyRouter Scenario.adminOnly
                 Scenario.heap0))
    = [].
Proof.
  split; [reflexivity|].
  edestruct (middleware_response_is_returned Scenario.denyRouter
               Scenario.adminOnly Scenario.heap0
               (Scenario.chainRoute
                  [Scenario.setX; Scenario.denyAfterNext; Scenario.failing]
                  Scenario.reportX)
               (Object emptyObject) (Object emptyObject)
               [Scenario.setX] Scenario.denyAfterNext [Scenario.failing])
    as (Hrun & Hcalls & Hhandler); [reflexivity..|].
  rewrite Hcalls, Hhandler, Hrun. repeat split.
Defined.

(** C7: when the chain reaches a middleware that neither calls [next] nor
    returns a [Response], the loop is left there: no later middleware is
    called, and the handler is called with the context that this middleware
    was given; the response is the one the handler call leads to. *)
Theorem silent_middleware_leaves_loop
    this req h route raw inp pre m post run :
  FastRPC.get (FastRPC.routes this) (procedure_name req) = FastRPC.Entry route →
  read_input req = Some raw →
  check_input (FastRPC.input route) raw h = Normal (inr inp) →
  FastRPC.middleware route = pre ++ m :: post →
  advance pre (FastRPC.working_context this h).1
    (FastRPC.working_context this h).2 = Some run →
  mw_next (mw_apply m (value run) (heap run)) = [] →
  mw_result (mw_apply m (value run) (heap run)) = Normal ReturnsOther →
  FastRPC.handle this req h
  = FastRPC.catch
      (prepend (events run ++ FastRPC.span m (value run))
         (FastRPC.call_handler (FastRPC.handler route) inp (value run)
            (mw_heap (mw_apply m (value run) (heap run)))))
  ∧ middleware_calls (events (FastRPC.handle this req h))
    = mw_name <$> (pre ++ [m])
  ∧ handler_calls (events (FastRPC.handle this req h)) = [(inp, value run)].
Proof.
  intros Hget Hread Hcheck Hms Hadv Hnext Hres.
  assert (FastRPC.handle this req h
          = FastRPC.catch
              (prepend (events run ++ FastRPC.span m (value run))
                 (FastRPC.call_handler (FastRPC.handler route) inp (value run)
                    (mw_heap (mw_apply m (value run) (heap run)))))) as ->.
  { unfold FastRPC.handle.
    rewrite (handle_try_reach _ _ _ _ _ _ _ _ _ _ Hget Hread Hcheck Hms Hadv).
    simpl. by rewrite Hres, Hnext. }
  destruct (advance_calls _ _ _ _ Hadv) as [Hmw Hh].
  split; [done|]. rewrite events_catch. simpl.
  rewrite !middleware_calls_app, !handler_calls_app, Hmw, Hh, fmap_app.
  destruct (h_result _) as [[]|e]; simpl;
    try destruct (caught_log_calls e) as [-> ->];
    by rewrite !app_nil_r.
Qed.

Lemma silent_middleware_leaves_loop_witness :
  value (FastRPC.handle Scenario.silentRouter Scenario.adminOnly Scenario.heap0)
    = Response_json (JBool true) None
  ∧ middleware_calls
      (events (FastRPC.handle Scenario.silentRouter Scenario.adminOnly
                 Scenario.heap0))
    = ["setX"; "silent"]
  ∧ handler_calls
      (events (FastRPC.handle Scenario.silentRouter Scenario.adminOnly
                 Scenario.heap0))
    = [(Object emptyObject, 4%positive)].
Proof.
  edestruct (silent_middleware_leaves_loop Scenario.silentRouter
               Scenario.adminOnly Scenario.heap0
               (Scenario.chainRoute
                  [Scenario.setX; Scenario.silent; Scenario.failing]
                  Scenario.reportX)
               (Object emptyObject) (Object emptyObject)
               [Scenario.setX] Scenario.silent [Scenario.failing])
    as (Hrun & Hcalls & Hhandler); [reflexivity..|].
  rewrite Hcalls, Hhandler, Hrun. repeat split.
Defined.

(** The requests for which a lookup finds an inherited object instead of an
    entry: there is nothing to validate and no middleware list, and the call
    of the missing [handler] throws a [TypeError], which the [catch] clause
    turns into the 500 response. *)
Lemma handle_inherited this req h raw :
  FastRPC.get (FastRPC.routes this) (procedure_name req) = FastRPC.Other →
  read_input req = Some raw →
  FastRPC.handle this req h
  = MkRun errorResponse (FastRPC.working_context this h).2
      [ConsoleError (JsError "TypeError" "route.handler is not a function")].
Proof.
  intros Hget Hread. unfold FastRPC.handle, FastRPC.handle_try.
  rewrite Hget, Hread; simpl. by destruct (FastRPC.working_context this h).
Qed.

(** C1 fails on the code: [toString] is not a registered name of the test
    suite's router, and the request [GET /toString] is answered with the
    module's [errorResponse], made with status 500 and
    [{"error": "Unknown error"}], not with 404.  No middleware and no handler
    is called. *)
Theorem handle_unregistered_inherited_name :
  ¬ registered (FastRPC.routes Scenario.appRouter)
      (procedure_name (Scenario.GET "/toString"))
  ∧ value (FastRPC.handle Scenario.appRouter (Scenario.GET "/toString")
             Scenario.heap0)
    = errorResponse
  ∧ constructed
      (value (FastRPC.handle Scenario.appRouter (Scenario.GET "/toString")
                Scenario.heap0))
    = {| status := 500;
         body := JsonBody (JObject [("error", JString "Unknown error")]) |}
  ∧ events (FastRPC.handle Scenario.appRouter (Scenario.GET "/toString")
              Scenario.heap0)
    = [ConsoleError (JsError "TypeError" "route.handler is not a function")].
Proof.
  split; [|by rewrite (handle_inherited _ _ _ (Object emptyObject))].
  rewrite <-get_entry_registered. by intros [route Hroute].
Qed.

(** The part of C1 that holds: a name that is not registered and not found
    along the prototype chain is answered 404, the heap is untouched and
    nothing is called. *)
Lemma handle_unknown_name this req h :
  ¬ registered (FastRPC.routes this) (procedure_name req) →
  FastRPC.proto (FastRPC.routes this) = None →
  procedure_name req ∉ FastRPC.Object_prototype_keys →
  FastRPC.handle this req h = MkRun notFoundResponse h [].
Proof. intros. by apply handle_not_found, get_undefined. Qed.

(** The log of the loop: the spans of the first [n] middleware of the list,
    in the order of the list. *)
Lemma loop_spans ms ctx h :
  ∃ n cs, n ≤ length ms ∧ length cs = n
          ∧ events (FastRPC.middleware_loop ms ctx h) = spans (take n ms) cs.
Proof.
  revert ctx h. induction ms as [|m ms IH]; intros ctx h.
  - by exists 0, [].
  - simpl.
    destruct (mw_result (mw_apply m ctx h)) as [[resp|]|e];
      try (exists 1, [ctx]; simpl; split_and!; [lia|done|];
           by rewrite take_0).
    case_bool_decide.
    + destruct (IH (default ctx (last (mw_next (mw_apply m ctx h))))
                  (mw_heap (mw_apply m ctx h))) as (n & cs & Hn & Hcs & Hevs).
      exists (S n), (ctx :: cs). simpl. rewrite Hevs, Hcs.
      split_and!; [lia|done|done].
    + exists 1, [ctx]. simpl. split_and!; [lia|done|]. by rewrite take_0.
Qed.

Lemma loop_handler_calls ms ctx h :
  handler_calls (events (FastRPC.middleware_loop ms ctx h)) = [].
Proof.
  destruct (loop_spans ms ctx h) as (n & cs & _ & _ & ->).
  apply handler_calls_spans.
Qed.

Lemma handle_invalid_json this req h :
  FastRPC.falsy (FastRPC.get (FastRPC.routes this) (procedure_name req)) = false →
  read_input req = None →
  FastRPC.handle this req h = MkRun invalidJsonResponse h [].
Proof.
  intros Hget Hread. unfold FastRPC.handle, FastRPC.handle_try.
  by rewrite Hget, Hread.
Qed.

Lemma handle_rejected this req h route raw response :
  FastRPC.get (FastRPC.routes this) (procedure_name req) = FastRPC.Entry route →
  read_input req = Some raw →
  check_input (FastRPC.input route) raw h = Normal (inl response) →
  FastRPC.handle this req h = MkRun response h [].
Proof.
  intros Hget Hread Hcheck. unfold FastRPC.handle, FastRPC.handle_try.
  rewrite Hget, Hread; simpl. by rewrite Hcheck.
Qed.

Lemma handle_check_throws this req h route raw e :
  FastRPC.get (FastRPC.routes this) (procedure_name req) = FastRPC.Entry route →
  read_input req = Some raw →
  check_input (FastRPC.input route) raw h = Throw e →
  FastRPC.handle this req h = MkRun (caught_response e) h (caught_log e).
Proof.
  intros Hget Hread Hcheck. unfold FastRPC.handle, FastRPC.handle_try.
  rewrite Hget, Hread; simpl. rewrite Hcheck. by rewrite catch_throw.
Qed.

(** The handler calls of a request that enters the chain: one call, with the
    accepted input and the context the loop was left with, when the loop is
    left; none otherwise. *)
Lemma handler_calls_route this req h route raw inp :
  FastRPC.get (FastRPC.routes this) (procedure_name req) = FastRPC.Entry route →
  read_input req = Some raw →
  check_input (FastRPC.input route) raw h = Normal (inr inp) →
  handler_calls (events (FastRPC.handle this req h))
  = match value (FastRPC.middleware_loop (FastRPC.middleware route)
                   (FastRPC.working_context this h).1
                   (FastRPC.working_context this h).2) with
    | Normal (FastRPC.Left ctx) => [(inp, ctx)]
    | _ => []
    end.
Proof.
  intros Hget Hread Hcheck. unfold FastRPC.handle.
  rewrite events_catch, (handle_try_route _ _ _ _ _ _ Hget Hread Hcheck).
  simpl.
  destruct (value (FastRPC.middleware_loop _ _ _)) as [[resp|ctx]|e]; simpl.
  - by rewrite app_nil_r, loop_handler_calls.
  - rewrite !handler_calls_app, loop_handler_calls. simpl.
    destruct (h_result _) as [[]|e]; simpl; try done.
    by destruct (caught_log_calls e) as [_ ->].
  - rewrite handler_calls_app, loop_handler_calls.
    by destruct (caught_log_calls e) as [_ ->].
Qed.

(** Every handler call of a request for a registered procedure carries the
    input that [check_input] let through. *)
Lemma handler_calls_accepted this req h route raw i c :
  FastRPC.get (FastRPC.routes this) (procedure_name req) = FastRPC.Entry route →
  read_input req = Some raw →
  (i, c) ∈ handler_calls (events (FastRPC.handle this req h)) →
  check_input (FastRPC.input route) raw h = Normal (inr i).
Proof.
  intros Hget Hread.
  destruct (check_input (FastRPC.input route) raw h) as [[resp|inp]|e] eqn:Hcheck.
  - rewrite (handle_rejected _ _ _ _ _ _ Hget Hread Hcheck). by intros ?%elem_of_nil.
  - rewrite (handler_calls_route _ _ _ _ _ _ Hget Hread Hcheck).
    destruct (value _) as [[?|?]|?]; try by intros ?%elem_of_nil.
    by intros [= -> ->]%list_elem_of_singleton.
  - rewrite (handle_check_throws _ _ _ _ _ _ Hget Hread Hcheck). simpl.
    destruct (caught_log_calls e) as [_ ->]. by intros ?%elem_of_nil.
Qed.

Lemma caught_log_not_middleware e :
  Forall (λ ev, is_middleware_event ev = false) (caught_log e).
Proof. destruct e; repeat constructor. Qed.

(** The log of [handle] for a registered procedure: the log of the loop,
    then events that are no middleware events. *)
Lemma events_route this req h route raw inp :
  FastRPC.get (FastRPC.routes this) (procedure_name req) = FastRPC.Entry route →
  read_input req = Some raw →
  check_input (FastRPC.input route) raw h = Normal (inr inp) →
  ∃ tail,
    events (FastRPC.handle this req h)
    = events (FastRPC.middleware_loop (FastRPC.middleware route)
                (FastRPC.working_context this h).1
                (FastRPC.working_context this h).2) ++ tail
    ∧ Forall (λ ev, is_middleware_event ev = false) tail.
Proof.
  intros Hget Hread Hcheck. unfold FastRPC.handle.
  rewrite events_catch, (handle_try_route _ _ _ _ _ _ Hget Hread Hcheck).
  simpl.
  destruct (value (FastRPC.middleware_loop _ _ _)) as [[resp|ctx]|e]; simpl.
  - exists []. by rewrite app_nil_r.
  - eexists. split; [by rewrite <-(assoc (++))|].
    apply Forall_app. split; [by repeat constructor|].
    destruct (h_result _) as [[]|e]; simpl;
      auto using caught_log_not_middleware.
  - eexists. split; [done|]. apply caught_log_not_middleware.
Qed.

Lemma use_appends builder fns :
  ProcedureBuilder._middleware (foldl ProcedureBuilder.use builder fns)
  = ProcedureBuilder._middleware builder ++ fns.
Proof.
  revert builder. induction fns as [|fn fns IH]; intros builder; simpl.
  - by rewrite app_nil_r.
  - rewrite IH. simpl. by rewrite <-(assoc (++)).
Qed.

Lemma use_keeps_input builder fns :
  ProcedureBuilder._input (foldl ProcedureBuilder.use builder fns)
  = ProcedureBuilder._input builder.
Proof.
  revert builder. induction fns as [|fn fns IH]; intros builder; simpl; [done|].
  by rewrite IH.
Qed.

(** C6: the middleware of a registered procedure are kept in the order of
    the [use] calls, and a request runs a prefix of that list in that order:
    the log of [handle] is the call of the first, its settling, the call of
    the second, its settling, and so on, followed by events among which
    there is no middleware event (the handler call comes there). *)
Theorem middleware_in_registration_order this req h route :
  FastRPC.get (FastRPC.routes this) (procedure_name req) = FastRPC.Entry route →
  (∀ rpc name fns handler,
     FastRPC.get
       (FastRPC.routes
          (FastRPCBuilder.register rpc
             (name,
              ProcedureBuilder.query
                (foldl ProcedureBuilder.use (ProcedureBuilder.new Query) fns)
                handler))) name
     = FastRPC.Entry {| FastRPC.handler := handler;
                        FastRPC.middleware := fns;
                        FastRPC.input := None |})
  ∧ ∃ n cs tail,
      n ≤ length (FastRPC.middleware route) ∧ length cs = n
      ∧ events (FastRPC.handle this req h)
        = spans (take n (FastRPC.middleware route)) cs ++ tail
      ∧ Forall (λ ev, is_middleware_event ev = false) tail
      ∧ middleware_calls (events (FastRPC.handle this req h))
        = mw_name <$> take n (FastRPC.middleware route).
Proof.
  intros Hget. split.
  { intros rpc name fns handler. unfold FastRPCBuilder.register.
    rewrite get_procedure. simpl. by rewrite use_appends, use_keeps_input. }
  assert (∀ tail,
    Forall (λ ev, is_middleware_event ev = false) tail →
    middleware_calls tail = []) as Htail.
  { induction 1 as [|[] tail Hev _ IH]; simplify_eq/=; done. }
  destruct (read_input req) as [raw|] eqn:Hread.
  2:{ rewrite handle_invalid_json by (by rewrite ?Hget).
      exists 0, [], []. rewrite take_0. split_and!; try done; lia. }
  destruct (check_input (FastRPC.input route) raw h) as [[resp|inp]|e] eqn:Hcheck.
  - rewrite (handle_rejected _ _ _ _ _ _ Hget Hread Hcheck).
    exists 0, [], []. rewrite take_0. split_and!; try done; lia.
  - destruct (events_route _ _ h _ _ _ Hget Hread Hcheck) as (tail & -> & Htl).
    destruct (loop_spans (FastRPC.middleware route)
                (FastRPC.working_context this h).1
                (FastRPC.working_context this h).2)
      as (n & cs & Hn & Hcs & ->).
    exists n, cs, tail. split_and!; try done.
    rewrite middleware_calls_app, (Htail _ Htl), app_nil_r.
    apply middleware_calls_spans. rewrite length_take. lia.
  - rewrite (handle_check_throws _ _ _ _ _ _ Hget Hread Hcheck).
    exists 0, [], (caught_log e). rewrite take_0. simpl.
    split_and!; try done; [lia|apply caught_log_not_middleware|].
    by destruct (caught_log_calls e) as [-> _].
Qed.

Lemma middleware_in_registration_order_witness :
  FastRPC.get (FastRPC.routes Scenario.adminRouter)
    (procedure_name Scenario.adminOnly)
  = FastRPC.Entry
      (Scenario.chainRoute [Scenario.addTimestamp; Scenario.isAdmin]
         (Scenario.returns (JString "admin data")))
  ∧ ∃ n, middleware_calls
           (events (FastRPC.handle Scenario.adminRouter Scenario.adminOnly
                      Scenario.heap0))
         = take n ["timestamp"; "admin"].
Proof.
  split; [reflexivity|].
  destruct (middleware_in_registration_order Scenario.adminRouter
              Scenario.adminOnly Scenario.heap0
              (Scenario.chainRoute [Scenario.addTimestamp; Scenario.isAdmin]
                 (Scenario.returns (JString "admin data")))
              eq_refl) as (_ & n & cs & tail & _ & _ & _ & _ & Hcalls).
  exists n. rewrite Hcalls. simpl FastRPC.middleware. by rewrite fmap_take.
Defined.

(** C3: for a registered procedure with an input schema, a failed
    validation of the input that was read is answered with status 400 and
    [{ error: <the errors> }], with nothing called and the heap untouched;
    after a successful validation every handler call carries the schema's
    output [data], and the handler is called with it whenever the middleware
    loop is left without a response. *)
Theorem schema_decides_input this req h route schema raw :
  FastRPC.get (FastRPC.routes this) (procedure_name req) = FastRPC.Entry route →
  FastRPC.input route = Some schema →
  read_input req = Some raw →
  (∀ errors,
     safeParse schema raw h = Normal (SafeParseError errors) →
     FastRPC.handle this req h
     = MkRun
         (New {| status := 400;
                 body := JsonBody (JObject [("error", errors)]) |})
         h [])
  ∧ (∀ data,
       safeParse schema raw h = Normal (SafeParseSuccess data) →
       (∀ i c, (i, c) ∈ handler_calls (events (FastRPC.handle this req h)) →
               i = data)
       ∧ (∀ ctx,
            value (FastRPC.middleware_loop (FastRPC.middleware route)
                     (FastRPC.working_context this h).1
                     (FastRPC.working_context this h).2)
            = Normal (FastRPC.Left ctx) →
            handler_calls (events (FastRPC.handle this req h)) = [(data, ctx)])).
Proof.
  intros Hget Hschema Hread. split.
  - intros errors Hparse.
    apply (handle_rejected _ _ _ _ _ _ Hget Hread).
    rewrite Hschema; simpl. by rewrite Hparse.
  - intros data Hparse.
    assert (check_input (FastRPC.input route) raw h = Normal (inr data)) as Hcheck.
    { rewrite Hschema; simpl. by rewrite Hparse. }
    split.
    + intros i c Hcall.
      pose proof (handler_calls_accepted _ _ _ _ _ _ _ Hget Hread Hcall).
      congruence.
    + intros ctx Hloop.
      by rewrite (handler_calls_route _ _ _ _ _ _ Hget Hread Hcheck), Hloop.
Qed.

Lemma schema_decides_input_witness :
  status
    (constructed
       (value (FastRPC.handle Scenario.appRouter
                 (Scenario.POST "/createUser" (Some Scenario.invalidUser))
                 Scenario.heap0))) = 400%Z
  ∧ events (FastRPC.handle Scenario.appRouter
              (Scenario.POST "/createUser" (Some Scenario.invalidUser))
              Scenario.heap0) = []
  ∧ handler_calls
      (events (FastRPC.handle Scenario.appRouter
                 (Scenario.POST "/createUser" (Some Scenario.testUser))
                 Scenario.heap0))
    = [(Parsed (JObject [("name", JString "Test User")]), 3%positive)].
Proof.
  destruct (schema_decides_input Scenario.appRouter
              (Scenario.POST "/createUser" (Some Scenario.invalidUser))
              Scenario.heap0 Scenario.createUserRoute
              (Scenario.object_with_string "name")
              (Parsed Scenario.invalidUser)
              eq_refl eq_refl eq_refl) as [Hbad _].
  destruct (schema_decides_input Scenario.appRouter
              (Scenario.POST "/createUser" (Some Scenario.testUser))
              Scenario.heap0 Scenario.createUserRoute
              (Scenario.object_with_string "name")
              (Parsed Scenario.testUser)
              eq_refl eq_refl eq_refl) as [_ Hgood].
  rewrite (Hbad _ eq_refl).
  destruct (Hgood _ eq_refl) as [_ Hcall].
  by rewrite (Hcall 3%positive eq_refl).
Defined.

(** X24: for a registered procedure, a request whose method is not [POST]
    has the module-level [emptyObject] as its input, by reference: that
    object is what is validated, and without a schema the handler is called
    with it whenever the middleware loop is left; a [POST] request whose body
    does not parse as JSON is answered with a new response of status 400 and
    [{"error": "Invalid JSON"}], with nothing called and the heap
    untouched. *)
Theorem input_of_request this req h route :
  FastRPC.get (FastRPC.routes this) (procedure_name req) = FastRPC.Entry route →
  (method req ≠ "POST" →
     read_input req = Some (Object emptyObject)
     ∧ (∀ i c, (i, c) ∈ handler_calls (events (FastRPC.handle this req h)) →
               check_input (FastRPC.input route) (Object emptyObject) h
               = Normal (inr i))
     ∧ (FastRPC.input route = None →
        ∀ ctx,
          value (FastRPC.middleware_loop (FastRPC.middleware route)
                   (FastRPC.working_context this h).1
                   (FastRPC.working_context this h).2)
          = Normal (FastRPC.Left ctx) →
          handler_calls (events (FastRPC.handle this req h))
          = [(Object emptyObject, ctx)]))
  ∧ (method req = "POST" → json req = None →
     FastRPC.handle this req h
     = MkRun
         (New {| status := 400;
                 body := JsonBody
                           (JObject [("error", JString "Invalid JSON")]) |})
         h []).
Proof.
  intros Hget. split.
  - intros Hmethod.
    assert (read_input req = Some (Object emptyObject)) as Hread.
    { unfold read_input. by rewrite decide_False. }
    split_and!; [done| |].
    + intros i c Hcall.
      apply (handler_calls_accepted _ _ _ _ _ _ _ Hget Hread Hcall).
    + intros Hnone ctx Hloop.
      rewrite (handler_calls_route _ _ _ _ (Object emptyObject)
                 (Object emptyObject) Hget Hread), Hloop; [done|].
      by rewrite Hnone.
  - intros Hmethod Hjson.
    apply handle_invalid_json; [by rewrite Hget|].
    unfold read_input. rewrite decide_True by done. by rewrite Hjson.
Qed.

Lemma input_of_request_witness :
  handler_calls
    (events (FastRPC.handle Scenario.visitRouter (Scenario.GET "/visit")
               Scenario.heap0))
  = [(Object emptyObject, 3%positive)]
  ∧ FastRPC.handle Scenario.visitRouter (Scenario.POST "/visit" None)
      Scenario.heap0
    = MkRun invalidJsonResponse Scenario.heap0 [].
Proof.
  destruct (input_of_request Scenario.visitRouter (Scenario.GET "/visit")
              Scenario.heap0 Scenario.visitRoute eq_refl) as [Hget _].
  destruct (input_of_request Scenario.visitRouter
              (Scenario.POST "/visit" None) Scenario.heap0
              Scenario.visitRoute eq_refl) as [_ Hpost].
  destruct Hget as (_ & _ & Hcalled); [discriminate|].
  split; [exact (Hcalled eq_refl 3%positive eq_refl)|].
  exact (Hpost eq_refl eq_refl).
Defined.

(** C4 fails on the code: the input of a request that is not a [POST] is
    the one object [emptyObject] of the module, not an empty object of its
    own.  The handler [visit] writes to its input; the first [GET /visit]
    finds the object empty and answers [{"seen": false}], and the second
    request is handed the same object, now with a property, and answers
    [{"seen": true}]. *)
Theorem shared_input_object_is_not_empty :
  Scenario.heap0 !! emptyObject = Some ∅
  ∧ FastRPC.handle Scenario.visitRouter (Scenario.GET "/visit") Scenario.heap0
    = MkRun
        (New {| status := 200;
                body := JsonBody (JObject [("seen", JBool false)]) |})
        (<[emptyObject := {[ "seen" := VBool true ]}]>
           (<[3%positive := ∅]> Scenario.heap0))
        [HandlerCalled (Object emptyObject) 3%positive]
  ∧ heap (FastRPC.handle Scenario.visitRouter (Scenario.GET "/visit")
            Scenario.heap0) !! emptyObject
    = Some {[ "seen" := VBool true ]}
  ∧ value
      (FastRPC.handle Scenario.visitRouter (Scenario.GET "/visit")
         (heap (FastRPC.handle Scenario.visitRouter (Scenario.GET "/visit")
                  Scenario.heap0)))
    = New {| status := 200;
             body := JsonBody (JObject [("seen", JBool true)]) |}
  ∧ handler_calls
      (events
         (FastRPC.handle Scenario.visitRouter (Scenario.GET "/visit")
            (heap (FastRPC.handle Scenario.visitRouter (Scenario.GET "/visit")
                     Scenario.heap0))))
    = [(Object emptyObject, 4%positive)].
Proof. split_and!; by vm_compute. Qed.

(** What the handler call adds when the loop is left. *)
Lemma handle_loop_left this req h route raw inp ctx :
  FastRPC.get (FastRPC.routes this) (procedure_name req) = FastRPC.Entry route →
  read_input req = Some raw →
  check_input (FastRPC.input route) raw h = Normal (inr inp) →
  value (FastRPC.middleware_loop (FastRPC.middleware route)
           (FastRPC.working_context this h).1
           (FastRPC.working_context this h).2) = Normal (FastRPC.Left ctx) →
  FastRPC.handle this req h
  = FastRPC.catch
      (prepend
         (events (FastRPC.middleware_loop (FastRPC.middleware route)
                    (FastRPC.working_context this h).1
                    (FastRPC.working_context this h).2))
         (FastRPC.call_handler (FastRPC.handler route) inp ctx
            (heap (FastRPC.middleware_loop (FastRPC.middleware route)
                     (FastRPC.working_context this h).1
                     (FastRPC.working_context this h).2)))).
Proof.
  intros Hget Hread Hcheck Hloop. unfold FastRPC.handle.
  rewrite (handle_try_route _ _ _ _ _ _ Hget Hread Hcheck). cbv zeta.
  by rewrite Hloop.
Qed.

(** X25: what the [try] block throws is answered by the [catch] clause: a
    [ZodError] with a new response of status 400 and its errors, anything
    else with the module-level [errorResponse] object (constructed with
    status 500 and [{"error": "Unknown error"}]) after logging it.  For a
    registered procedure this is what happens to an exception thrown by
    [safeParse], by a middleware the chain has reached, and by the
    handler. *)
Theorem thrown_errors_are_answered this req h route raw e :
  FastRPC.get (FastRPC.routes this) (procedure_name req) = FastRPC.Entry route →
  read_input req = Some raw →
  (∀ schema,
     FastRPC.input route = Some schema → safeParse schema raw h = Throw e →
     FastRPC.handle this req h = MkRun (caught_response e) h (caught_log e))
  ∧ (∀ inp pre m post run,
       check_input (FastRPC.input route) raw h = Normal (inr inp) →
       FastRPC.middleware route = pre ++ m :: post →
       advance pre (FastRPC.working_context this h).1
         (FastRPC.working_context this h).2 = Some run →
       mw_result (mw_apply m (value run) (heap run)) = Throw e →
       FastRPC.handle this req h
       = MkRun (caught_response e)
           (mw_heap (mw_apply m (value run) (heap run)))
           (events run ++ FastRPC.span m (value run) ++ caught_log e))
  ∧ (∀ inp ctx,
       let chain :=
         FastRPC.middleware_loop (FastRPC.middleware route)
           (FastRPC.working_context this h).1
           (FastRPC.working_context this h).2 in
       check_input (FastRPC.input route) raw h = Normal (inr inp) →
       value chain = Normal (FastRPC.Left ctx) →
       h_result (FastRPC.handler route inp ctx (heap chain)) = Throw e →
       FastRPC.handle this req h
       = MkRun (caught_response e)
           (h_heap (FastRPC.handler route inp ctx (heap chain)))
           (events chain ++ [HandlerCalled inp ctx] ++ caught_log e))
  ∧ (value (FastRPC.handle this req h)
     = match value (FastRPC.handle_try this req h) with
       | Normal response => response
       | Throw e' => caught_response e'
       end)
  ∧ (∀ errors,
       caught_response (ZodError errors)
       = New {| status := 400;
                body := JsonBody (JObject [("error", errors)]) |}
       ∧ caught_log (ZodError errors) = [])
  ∧ (∀ class message,
       caught_response (JsError class message) = errorResponse
       ∧ constructed (caught_response (JsError class message))
         = {| status := 500;
              body := JsonBody
                        (JObject [("error", JString "Unknown error")]) |}
       ∧ caught_log (JsError class message)
         = [ConsoleError (JsError class message)]).
Proof.
  intros Hget Hread. split_and!; try done.
  - intros schema Hschema Hparse.
    apply (handle_check_throws _ _ _ _ _ _ Hget Hread).
    rewrite Hschema; simpl. by rewrite Hparse.
  - intros inp pre m post run Hcheck Hms Hadv Hres. unfold FastRPC.handle.
    rewrite (handle_try_reach _ _ _ _ _ _ _ _ _ _ Hget Hread Hcheck Hms Hadv).
    simpl. rewrite Hres. simpl. rewrite catch_throw. simpl.
    by rewrite <-!(assoc (++)).
  - intros inp ctx chain Hcheck Hloop Hres.
    rewrite (handle_loop_left _ _ _ _ _ _ _ Hget Hread Hcheck Hloop).
    fold chain. unfold FastRPC.call_handler, prepend.
    cbn [value heap events]. rewrite Hres, catch_throw.
    by rewrite <-(assoc (++)).
  - unfold FastRPC.handle, FastRPC.catch.
    by destruct (value (FastRPC.handle_try this req h)) as [?|[]].
Qed.

Lemma thrown_errors_are_answered_witness :
  value (FastRPC.handle Scenario.throwingRouter Scenario.adminOnly
           Scenario.heap0) = errorResponse
  ∧ events (FastRPC.handle Scenario.throwingRouter Scenario.adminOnly
              Scenario.heap0)
    = [MiddlewareCalled "setX" 3%positive; MiddlewareSettled "setX";
       HandlerCalled (Object emptyObject) 4%positive;
       ConsoleError (JsError "Error" "User not found")]
  ∧ value (FastRPC.handle Scenario.failingRouter Scenario.adminOnly
             Scenario.heap0) = errorResponse.
Proof.
  destruct (thrown_errors_are_answered Scenario.throwingRouter
              Scenario.adminOnly Scenario.heap0
              (Scenario.chainRoute [Scenario.setX] Scenario.userNotFound)
              (Object emptyObject) (JsError "Error" "User not found")
              eq_refl eq_refl)
    as (_ & _ & Hhandler & _).
  rewrite (Hhandler (Object emptyObject) 4%positive eq_refl eq_refl eq_refl).
  split_and!; [reflexivity..|].
  destruct (thrown_errors_are_answered Scenario.failingRouter
              Scenario.adminOnly Scenario.heap0
              (Scenario.chainRoute [Scenario.setX; Scenario.failing]
                 Scenario.userNotFound)
              (Object emptyObject) (JsError "Error" "boom") eq_refl eq_refl)
    as (_ & Hmw & _).
  by erewrite (Hmw (Object emptyObject) [Scenario.setX] Scenario.failing []);
    [|reflexivity..].
Defined.

(** C8 fails on the code: an exception that is not a [ZodError] is answered
    with the one [errorResponse] object of the module, not with a response of
    its own, and a body is read once.  The handler of this router throws on
    every request: both requests are answered with the same object, the body
    of the first answer is [{"error": "Unknown error"}], and reading the body
    of the second answer throws. *)
Theorem error_response_body_is_read_once :
  value (FastRPC.handle Scenario.throwingRouter Scenario.adminOnly
           Scenario.heap0) = errorResponse
  ∧ value
      (FastRPC.handle Scenario.throwingRouter Scenario.adminOnly
         (heap (FastRPC.handle Scenario.throwingRouter Scenario.adminOnly
                  Scenario.heap0))) = errorResponse
  ∧ ConsoleError (JsError "Error" "User not found")
    ∈ events
        (FastRPC.handle Scenario.throwingRouter Scenario.adminOnly
           (heap (FastRPC.handle Scenario.throwingRouter Scenario.adminOnly
                    Scenario.heap0)))
  ∧ read_body
      (value (FastRPC.handle Scenario.throwingRouter Scenario.adminOnly
                Scenario.heap0)) unread
    = (Normal (JsonBody (JObject [("error", JString "Unknown error")])),
       {| notFound_used := false; error_used := true |})
  ∧ read_body
      (value
         (FastRPC.handle Scenario.throwingRouter Scenario.adminOnly
            (heap (FastRPC.handle Scenario.throwingRouter Scenario.adminOnly
                     Scenario.heap0))))
      (read_body
         (value (FastRPC.handle Scenario.throwingRouter Scenario.adminOnly
                   Scenario.heap0)) unread).2
    = (Throw (JsError "TypeError" "Body is unusable"),
       {| notFound_used := false; error_used := true |}).
Proof.
  split_and!; try by vm_compute.
  vm_compute. do 3 right. left.
Qed.

(** * The context *)

(** [{ ...this.ctx }] is a new object with the properties of the base
    context; no other object changes. *)
Lemma working_context_copy this h :
  h !! (FastRPC.working_context this h).1 = None
  ∧ (FastRPC.working_context this h).2 !! (FastRPC.working_context this h).1
    = Some (spread h (FastRPC.ctx this))
  ∧ ∀ l, l ≠ (FastRPC.working_context this h).1 →
         (FastRPC.working_context this h).2 !! l = h !! l.
Proof.
  unfold FastRPC.working_context, alloc; simpl. split_and!.
  - apply not_elem_of_dom, is_fresh.
  - apply lookup_insert_eq.
  - intros l Hl. by apply lookup_insert_ne.
Qed.

Lemma advance_snoc pre m ctx h run ctx' :
  advance pre ctx h = Some run →
  mw_result (mw_apply m (value run) (heap run)) = Normal ReturnsOther →
  last (mw_next (mw_apply m (value run) (heap run))) = Some ctx' →
  advance (pre ++ [m]) ctx h
  = Some (MkRun ctx' (mw_heap (mw_apply m (value run) (heap run)))
            (events run ++ FastRPC.span m (value run))).
Proof.
  revert ctx h run. induction pre as [|m' pre IH]; intros ctx h run Hadv Hres Hlast.
  - simplify_eq/=. by rewrite Hres, Hlast.
  - simpl in *.
    destruct (mw_result (mw_apply m' ctx h)) as [[resp|]|e]; try done.
    destruct (last (mw_next (mw_apply m' ctx h))) as [c|]; [|done].
    destruct (advance pre c _) as [run'|] eqn:Hrest; simplify_eq/=.
    by rewrite (IH _ _ _ Hrest Hres Hlast).
Qed.

(** After the chain has advanced through a prefix of the list, the next
    call is made with the context the prefix leaves. *)
Lemma events_after_advance this req h route raw inp pre post run :
  FastRPC.get (FastRPC.routes this) (procedure_name req) = FastRPC.Entry route →
  read_input req = Some raw →
  check_input (FastRPC.input route) raw h = Normal (inr inp) →
  FastRPC.middleware route = pre ++ post →
  advance pre (FastRPC.working_context this h).1
    (FastRPC.working_context this h).2 = Some run →
  ∃ rest,
    events (FastRPC.handle this req h)
    = events run ++ next_call post inp (value run) :: rest.
Proof.
  intros Hget Hread Hcheck Hms Hadv.
  destruct post as [|m post].
  - assert (value (FastRPC.middleware_loop (FastRPC.middleware route)
                     (FastRPC.working_context this h).1
                     (FastRPC.working_context this h).2)
            = Normal (FastRPC.Left (value run))) as Hloop.
    { by rewrite Hms, (loop_advance _ _ _ _ _ Hadv). }
    rewrite (handle_loop_left _ _ _ _ _ _ _ Hget Hread Hcheck Hloop).
    rewrite events_catch, Hms, (loop_advance _ _ _ _ _ Hadv). simpl.
    eexists. by rewrite app_nil_r, <-(assoc (++)).
  - destruct (events_route _ _ h _ _ _ Hget Hread Hcheck) as (tail & -> & _).
    rewrite Hms, (loop_advance _ _ _ _ _ Hadv). simpl.
    eexists. by rewrite <-(assoc (++)).
Qed.

Lemma default_last_ne (l ctx : loc) (cs : list loc) :
  ctx ≠ l → l ∉ cs → default ctx (last cs) ≠ l.
Proof.
  intros Hctx Hcs. destruct (last cs) as [c|] eqn:Hlast; [|done].
  simpl. intros ->. apply Hcs. by apply last_Some_elem_of.
Qed.

(** The loop keeps an object that every middleware keeps, and never leaves
    with that object as the context. *)
Lemma loop_keeps l ms ctx h :
  Forall (middleware_keeps l) ms → ctx ≠ l → is_Some (h !! l) →
  heap (FastRPC.middleware_loop ms ctx h) !! l = h !! l
  ∧ ∀ ctx', value (FastRPC.middleware_loop ms ctx h)
            = Normal (FastRPC.Left ctx') → ctx' ≠ l.
Proof.
  intros Hms. revert ctx h.
  induction Hms as [|m ms Hm _ IH]; intros ctx h Hctx Hsome;
    simpl; unfold prepend; simpl.
  - split; [done|]. by intros ? [= <-].
  - destruct (Hm ctx h Hctx Hsome) as [Hheap Hnext].
    pose proof (default_last_ne _ _ _ Hctx Hnext) as Hctx'.
    destruct (mw_result (mw_apply m ctx h)) as [[resp|]|e]; simpl;
      [done|..|done].
    case_bool_decide; simpl.
    + destruct (IH _ (mw_heap (mw_apply m ctx h)) Hctx') as [Hh Hv].
      { by rewrite Hheap. }
      split; [by rewrite Hh|done].
    + split; [done|]. by intros ? [= <-].
Qed.

(** [handle] does not write to the base context: if the callbacks of the
    route keep it, it is the same after the request. *)
Lemma handle_keeps_base this req h route :
  FastRPC.get (FastRPC.routes this) (procedure_name req) = FastRPC.Entry route →
  is_Some (h !! FastRPC.ctx this) →
  Forall (middleware_keeps (FastRPC.ctx this)) (FastRPC.middleware route) →
  handler_keeps (FastRPC.ctx this) (FastRPC.handler route) →
  heap (FastRPC.handle this req h) !! FastRPC.ctx this = h !! FastRPC.ctx this.
Proof.
  intros Hget Hsome Hms Hhandler.
  destruct (read_input req) as [raw|] eqn:Hread.
  2:{ by rewrite handle_invalid_json by (by rewrite ?Hget). }
  destruct (check_input (FastRPC.input route) raw h) as [[resp|inp]|e] eqn:Hcheck.
  - by rewrite (handle_rejected _ _ _ _ _ _ Hget Hread Hcheck).
  - destruct (working_context_copy this h) as (Hfresh & _ & Hother).
    assert ((FastRPC.working_context this h).1 ≠ FastRPC.ctx this) as Hne.
    { intros Heq. rewrite Heq in Hfresh. rewrite Hfresh in Hsome.
      by destruct Hsome. }
    destruct (loop_keeps _ _ _ (FastRPC.working_context this h).2 Hms Hne)
      as [Hheap Hleft].
    { by rewrite Hother. }
    rewrite Hother in Hheap by done.
    unfold FastRPC.handle.
    rewrite heap_catch, (handle_try_route _ _ _ _ _ _ Hget Hread Hcheck).
    cbv zeta.
    destruct (value (FastRPC.middleware_loop _ _ _)) as [[r|ctx]|e]; try done.
    unfold prepend, FastRPC.call_handler; cbn [heap].
    rewrite Hhandler; [done|by apply Hleft|by rewrite Hheap].
  - by rewrite (handle_check_throws _ _ _ _ _ _ Hget Hread Hcheck).
Qed.

Lemma writeX_keeps l : middleware_keeps l Scenario.writeX.
Proof.
  intros c h Hc _; simpl. split; [by apply lookup_insert_ne|].
  by intros ->%list_elem_of_singleton.
Qed.

Lemma next_with_keeps key v l c h :
  is_Some (h !! l) →
  mw_heap (Scenario.next_with key v c h) !! l = h !! l
  ∧ l ∉ mw_next (Scenario.next_with key v c h).
Proof.
  intros Hl. unfold Scenario.next_with, alloc; simpl.
  assert (fresh (dom h) ≠ l) as Hfresh.
  { intros <-. by apply (is_fresh (dom h)), elem_of_dom. }
  split; [by apply lookup_insert_ne|].
  by intros ?%list_elem_of_singleton.
Qed.

Lemma setX_keeps l : middleware_keeps l Scenario.setX.
Proof. intros c h _ Hl. by apply next_with_keeps. Qed.

Lemma reportX_keeps l : handler_keeps l Scenario.reportX.
Proof. by intros i c h _ _. Qed.

(** C9: for a request that enters the chain of a registered procedure, the
    working context is a new object holding the properties of the base
    context, and the first call receives it; the context a middleware passes
    to [next] (the last one, if it calls [next] more than once) is the one
    the next middleware, or the handler after the last middleware, receives;
    and [handle] itself never writes to the base context: when the callbacks
    of the route keep it, it is the same object with the same properties
    after the request, so the next request starts from a copy of the same
    properties. *)
Theorem context_copied_threaded_kept this req h route raw inp :
  FastRPC.get (FastRPC.routes this) (procedure_name req) = FastRPC.Entry route →
  read_input req = Some raw →
  check_input (FastRPC.input route) raw h = Normal (inr inp) →
  let ctx0 := (FastRPC.working_context this h).1 in
  let h0 := (FastRPC.working_context this h).2 in
  (h !! ctx0 = None
   ∧ h0 !! ctx0 = Some (default ∅ (h !! FastRPC.ctx this))
   ∧ (∀ l, l ≠ ctx0 → h0 !! l = h !! l)
   ∧ ∃ rest,
       events (FastRPC.handle this req h)
       = next_call (FastRPC.middleware route) inp ctx0 :: rest)
  ∧ (∀ pre m post run ctx',
       FastRPC.middleware route = pre ++ m :: post →
       advance pre ctx0 h0 = Some run →
       mw_result (mw_apply m (value run) (heap run)) = Normal ReturnsOther →
       last (mw_next (mw_apply m (value run) (heap run))) = Some ctx' →
       ∃ rest,
         events (FastRPC.handle this req h)
         = events run ++ FastRPC.span m (value run)
           ++ next_call post inp ctx' :: rest)
  ∧ (is_Some (h !! FastRPC.ctx this) →
     Forall (middleware_keeps (FastRPC.ctx this)) (FastRPC.middleware route) →
     handler_keeps (FastRPC.ctx this) (FastRPC.handler route) →
     let h' := heap (FastRPC.handle this req h) in
     h' !! FastRPC.ctx this = h !! FastRPC.ctx this
     ∧ (FastRPC.working_context this h').2 !! (FastRPC.working_context this h').1
       = Some (default ∅ (h !! FastRPC.ctx this))).
Proof.
  intros Hget Hread Hcheck ctx0 h0. split_and!.
  - apply working_context_copy.
  - apply working_context_copy.
  - apply working_context_copy.
  - by destruct (events_after_advance this req h route raw inp []
                   (FastRPC.middleware route) (MkRun ctx0 h0 [])
                   Hget Hread Hcheck eq_refl eq_refl) as [rest ->]; eexists.
  - intros pre m post run ctx' Hms Hadv Hres Hlast.
    pose proof (advance_snoc _ _ _ _ _ _ Hadv Hres Hlast) as Hadv'.
    assert (FastRPC.middleware route = (pre ++ [m]) ++ post) as Hms'.
    { by rewrite <-(assoc (++)). }
    destruct (events_after_advance this req h route raw inp (pre ++ [m]) post
                _ Hget Hread Hcheck Hms' Hadv') as [rest ->].
    simpl. exists rest. by rewrite <-(assoc (++)).
  - intros Hsome Hms Hhandler h'. subst h'.
    pose proof (handle_keeps_base _ req _ _ Hget Hsome Hms Hhandler) as Hbase.
    split; [done|].
    destruct (working_context_copy this (heap (FastRPC.handle this req h)))
      as (_ & -> & _).
    unfold spread. by rewrite Hbase.
Qed.

Lemma context_copied_threaded_kept_witness :
  (∃ rest,
     events (FastRPC.handle Scenario.contextRouter Scenario.adminOnly
               Scenario.heap0)
     = MiddlewareCalled "writeX" 3%positive :: rest)
  ∧ (∃ rest,
       events (FastRPC.handle Scenario.contextRouter Scenario.adminOnly
                 Scenario.heap0)
       = [MiddlewareCalled "writeX" 3%positive; MiddlewareSettled "writeX";
          MiddlewareCalled "setX" 3%positive; MiddlewareSettled "setX";
          HandlerCalled (Object emptyObject) 4%positive] ++ rest)
  ∧ Scenario.heap0 !! Scenario.base = Some ∅
  ∧ heap (FastRPC.handle Scenario.contextRouter Scenario.adminOnly
            Scenario.heap0) !! Scenario.base = Some ∅
  ∧ heap (FastRPC.handle Scenario.contextRouter Scenario.adminOnly
            Scenario.heap0) !! 3%positive = Some {[ "x" := VNumber 1 ]}.
Proof.
  destruct (context_copied_threaded_kept Scenario.contextRouter
              Scenario.adminOnly Scenario.heap0
              (Scenario.chainRoute [Scenario.writeX; Scenario.setX]
                 Scenario.reportX)
              (Object emptyObject) (Object emptyObject) eq_refl eq_refl eq_refl)
    as ((_ & _ & _ & Hfirst) & Hnext & Hkept).
  split_and!.
  - exact Hfirst.
  - by edestruct (Hnext [Scenario.writeX] Scenario.setX []) as [rest ->];
      [reflexivity..|]; exists rest.
  - reflexivity.
  - refine (proj1 (Hkept _ _ _)).
    + by eexists.
    + constructor; [apply writeX_keeps|].
      constructor; [apply setX_keeps|constructor].
    + apply reportX_keeps.
  - reflexivity.
Defined.

(** * The client *)

(** C10: [query] does not use its argument: whatever the two inputs (an
    absent input included), the call issues the same single request, a [GET]
    of [baseUrl/name] without headers and without a body, and has the same
    outcome. *)
Theorem query_ignores_input baseUrl name fetch (input1 input2 : option Json) :
  Client.query (Client.createClient baseUrl name) input1 fetch
  = Client.query (Client.createClient baseUrl name) input2 fetch
  ∧ Client.issued (Client.query (Client.createClient baseUrl name) input1 fetch)
    = [(baseUrl +:+ "/" +:+ name,
        {| Client.method := "GET"; Client.headers := [];
           Client.body := None |})].
Proof. done. Qed.

(** * Further properties of the route table *)

Lemma get_set_ne routes name entry name' :
  name ≠ "__proto__" → name' ≠ name →
  FastRPC.get (FastRPC.set routes name entry) name' = FastRPC.get routes name'.
Proof.
  intros Hproto Hne. unfold FastRPC.get, FastRPC.set.
  rewrite decide_False by (by intros [? _]). simpl.
  by rewrite lookup_insert_ne.
Qed.

Lemma get_set_entry_ne routes name entry name' route :
  FastRPC.get routes name' = FastRPC.Entry route → name' ≠ name →
  FastRPC.get (FastRPC.set routes name entry) name' = FastRPC.Entry route.
Proof.
  intros Hget Hne. unfold FastRPC.get, FastRPC.set in *.
  destruct (decide (name = "__proto__" ∧ FastRPC.own routes !! name = None))
    as [[-> _]|Hname]; simpl.
  - destruct (FastRPC.own routes !! name') eqn:Hown; [done|].
    destruct (FastRPC.proto routes) as [old|];
      unfold FastRPC.Object_prototype_get in *;
      repeat case_decide; simplify_eq; try done.
    by destruct (FastRPC.input old).
  - rewrite lookup_insert_ne by done.
    destruct (FastRPC.own routes !! name') eqn:Hown; [done|].
    destruct (FastRPC.proto routes) as [old|]; [|done].
    unfold FastRPC.Object_prototype_get in *.
    repeat case_decide; simplify_eq; try done.
Qed.

(** X1: what [procedure] stores under a name is what a lookup of that name
    finds afterwards, whatever the table held before (an earlier entry of
    that name is replaced) and whatever the name is; a middleware list that
    was not given is stored as the empty list. *)
Theorem procedure_then_get this name handler middleware input :
  FastRPC.get
    (FastRPC.routes (FastRPC.procedure this name handler middleware input)) name
  = FastRPC.Entry
      {| FastRPC.handler := handler;
         FastRPC.middleware :=
           match middleware with Some ms => ms | None => [] end;
         FastRPC.input := input |}
  ∧ FastRPC.ctx (FastRPC.procedure this name handler middleware input)
    = FastRPC.ctx this.
Proof. split; [|done]. rewrite get_procedure. by destruct middleware. Qed.

(** X2: registering a procedure leaves the entries of all other names as
    they are. *)
Theorem procedure_keeps_other_entries
    this name handler middleware input name' route :
  FastRPC.get (FastRPC.routes this) name' = FastRPC.Entry route →
  name' ≠ name →
  FastRPC.get
    (FastRPC.routes (FastRPC.procedure this name handler middleware input)) name'
  = FastRPC.Entry route.
Proof. intros Hget Hne. by apply get_set_entry_ne. Qed.

Lemma procedure_keeps_other_entries_witness :
  FastRPC.get (FastRPC.routes Scenario.appRouter) "status"
  = FastRPC.Entry Scenario.statusRoute
  ∧ FastRPC.get
      (FastRPC.routes
         (FastRPC.procedure Scenario.appRouter "__proto__"
            Scenario.userNotFound None None)) "status"
    = FastRPC.Entry Scenario.statusRoute.
Proof.
  split; [reflexivity|].
  apply (procedure_keeps_other_entries Scenario.appRouter "__proto__"
           Scenario.userNotFound None None "status" Scenario.statusRoute);
    [reflexivity|discriminate].
Defined.

Lemma registered_foldl_register rpc procedures name :
  registered
    (FastRPC.routes (foldl FastRPCBuilder.register rpc procedures)) name
  ↔ name ∈ procedures.*1 ∨ registered (FastRPC.routes rpc) name.
Proof.
  revert rpc. induction procedures as [|[n p] ps IH]; intros rpc; simpl.
  - rewrite elem_of_nil. tauto.
  - rewrite IH, elem_of_cons. unfold FastRPCBuilder.register; simpl.
    rewrite registered_set. tauto.
Qed.

(** X3: the names a router built by [router] has registered are exactly the
    names listed in the procedures object. *)
Theorem router_registers_listed_names self procedures name :
  registered (FastRPC.routes (FastRPCBuilder.router self procedures)) name
  ↔ name ∈ procedures.*1.
Proof.
  unfold FastRPCBuilder.router. rewrite registered_foldl_register.
  pose proof (registered_init (FastRPCBuilder.context self) name). tauto.
Qed.

Lemma get_foldl_register rpc procedures name route :
  FastRPC.get (FastRPC.routes rpc) name = FastRPC.Entry route →
  name ∉ procedures.*1 →
  FastRPC.get
    (FastRPC.routes (foldl FastRPCBuilder.register rpc procedures)) name
  = FastRPC.Entry route.
Proof.
  revert rpc. induction procedures as [|[n p] ps IH]; intros rpc Hget Hnot;
    simpl; [done|].
  simpl in Hnot. apply not_elem_of_cons in Hnot as [Hne Hnot].
  apply IH; [|done]. by apply get_set_entry_ne.
Qed.

(** X4: a request name dispatches to the last procedure listed under it:
    the entry found holds that procedure's handler, its middleware list (the
    empty list when it has none) and its schema. *)
Theorem router_entry_is_last_listed self before name procedure after :
  name ∉ after.*1 →
  FastRPC.get
    (FastRPC.routes
       (FastRPCBuilder.router self (before ++ (name, procedure) :: after)))
    name
  = FastRPC.Entry
      {| FastRPC.handler := Procedure._handler procedure;
         FastRPC.middleware :=
           match Procedure._middleware procedure with
           | Some ms => ms
           | None => []
           end;
         FastRPC.input := Procedure.input procedure |}.
Proof.
  intros Hnot. unfold FastRPCBuilder.router. rewrite foldl_app. simpl.
  apply get_foldl_register; [|done].
  unfold FastRPCBuilder.register. rewrite get_procedure. simpl.
  by destruct (Procedure._middleware procedure).
Qed.

Lemma router_entry_is_last_listed_witness :
  ("status"
     ∉ fst <$> [("getUser", FastRPCBuilder.procedure_query Scenario.getUser)])
  ∧ FastRPC.get
      (FastRPC.routes
         (FastRPCBuilder.router Scenario.initFastRPC
            [("status", FastRPCBuilder.procedure_query Scenario.userNotFound);
             ("status",
              FastRPCBuilder.procedure_query
                (Scenario.returns (JObject [("status", JString "ok")])));
             ("getUser", FastRPCBuilder.procedure_query Scenario.getUser)]))
      "status"
    = FastRPC.Entry Scenario.statusRoute.
Proof.
  assert ("status"
          ∉ fst <$> [("getUser",
                      FastRPCBuilder.procedure_query Scenario.getUser)])
    as Hnot by (by apply (bool_decide_unpack _)).
  split; [exact Hnot|].
  exact (router_entry_is_last_listed Scenario.initFastRPC
           [("status", FastRPCBuilder.procedure_query Scenario.userNotFound)]
           "status"
           (FastRPCBuilder.procedure_query
              (Scenario.returns (JObject [("status", JString "ok")])))
           [("getUser", FastRPCBuilder.procedure_query Scenario.getUser)]
           Hnot).
Defined.

(** X5: the kind of a procedure is dropped at registration: a router built
    from a query and the router built from the mutation with the same
    builder and handler in its place are the same router, so [handle]
    answers every request alike, whatever its method. *)
Theorem router_drops_procedure_kind self before name builder handler after :
  FastRPCBuilder.router self
    (before ++ (name, ProcedureBuilder.query builder handler) :: after)
  = FastRPCBuilder.router self
      (before ++ (name, ProcedureBuilder.mutation builder handler) :: after).
Proof. unfold FastRPCBuilder.router. by rewrite !foldl_app. Qed.

(** X6: [input] and [use] can be chained in either order: adding middleware
    after the schema gives the builder that adding the schema after the
    middleware gives; and a second [input] replaces the schema and keeps the
    middleware. *)
Theorem builder_input_use_commute builder schema :
  (∀ fns,
     foldl ProcedureBuilder.use (ProcedureBuilder.input builder schema) fns
     = ProcedureBuilder.input (foldl ProcedureBuilder.use builder fns) schema)
  ∧ (∀ schema',
       ProcedureBuilder.input (ProcedureBuilder.input builder schema) schema'
       = ProcedureBuilder.input builder schema').
Proof.
  split; [|done]. intros fns. revert builder.
  induction fns as [|fn fns IH]; intros builder; simpl; [done|].
  by rewrite <-IH.
Qed.

Lemma ctx_foldl_register rpc procedures :
  FastRPC.ctx (foldl FastRPCBuilder.register rpc procedures) = FastRPC.ctx rpc.
Proof.
  revert rpc. induction procedures as [|p ps IH]; intros rpc; simpl; [done|].
  by rewrite IH.
Qed.

(** X7: every router that [router] builds has the builder's context object
    as its base context, whatever procedures are registered; two routers of
    one builder share it. *)
Theorem router_shares_builder_context self procedures procedures' :
  FastRPC.ctx (FastRPCBuilder.router self procedures)
  = FastRPCBuilder.context self
  ∧ FastRPC.ctx (FastRPCBuilder.router self procedures)
    = FastRPC.ctx (FastRPCBuilder.router self procedures').
Proof. unfold FastRPCBuilder.router. by rewrite !ctx_foldl_register. Qed.

(** * Further properties of the dispatcher *)

(** X8: the name that [handle] looks up never contains a [/]; the path is
    that name, or ends with a [/] followed by that name. *)
Theorem resolved_name_shape req :
  has_char "/" (procedure_name req) = false
  ∧ (pathname req = procedure_name req
     ∨ ∃ prefix, pathname req = prefix +:+ "/" +:+ procedure_name req).
Proof.
  unfold procedure_name. rewrite or_empty_default.
  destruct (last (split "/" (pathname req))) as [t|] eqn:Hlast.
  - by apply last_split_suffix.
  - apply last_None in Hlast. by apply split_nonempty in Hlast.
Qed.

Lemma handle_same_slot this this' req h :
  FastRPC.get (FastRPC.routes this') (procedure_name req)
  = FastRPC.get (FastRPC.routes this) (procedure_name req) →
  FastRPC.ctx this' = FastRPC.ctx this →
  FastRPC.handle this' req h = FastRPC.handle this req h.
Proof.
  intros Hget Hctx.
  unfold FastRPC.handle, FastRPC.handle_try, FastRPC.working_context.
  by rewrite Hget, Hctx.
Qed.

(** X9: a procedure registered under a name that contains a [/] cannot be
    reached: the router with it answers every request as the router without
    it does. *)
Theorem slash_name_is_unreachable this name handler middleware input req h :
  has_char "/" name = true →
  FastRPC.handle (FastRPC.procedure this name handler middleware input) req h
  = FastRPC.handle this req h.
Proof.
  intros Hslash. apply handle_same_slot; [|done]. simpl.
  apply get_set_ne.
  - by intros ->.
  - intros Heq. destruct (procedure_name_suffix req) as [Hno _].
    rewrite Heq in Hno. congruence.
Qed.

Lemma slash_name_is_unreachable_witness :
  has_char "/" "api/status" = true
  ∧ FastRPC.handle
      (FastRPC.procedure (FastRPC.init Scenario.base) "api/status"
         (Scenario.returns (JObject [("status", JString "ok")])) None None)
      (Scenario.GET "/api/status") Scenario.heap0
    = MkRun notFoundResponse Scenario.heap0 [].
Proof.
  split; [reflexivity|].
  by rewrite (slash_name_is_unreachable (FastRPC.init Scenario.base)
                "api/status"
                (Scenario.returns (JObject [("status", JString "ok")]))
                None None (Scenario.GET "/api/status") Scenario.heap0 eq_refl).
Defined.

(** X10: the body of a request is read only when the method is [POST]: for
    any other method, [handle] answers the same whatever [req.json()] would
    give. *)
Theorem body_ignored_unless_post this req h body :
  method req ≠ "POST" →
  FastRPC.handle this
    {| pathname := pathname req; method := method req; json := body |} h
  = FastRPC.handle this req h.
Proof.
  intros Hmethod. unfold FastRPC.handle, FastRPC.handle_try, read_input.
  simpl. by rewrite !decide_False.
Qed.

Lemma body_ignored_unless_post_witness :
  "PUT" ≠ "POST"
  ∧ events
      (FastRPC.handle Scenario.appRouter
         {| pathname := "/createUser"; method := "PUT";
            json := Some Scenario.testUser |} Scenario.heap0)
    = [].
Proof.
  split; [discriminate|].
  transitivity
    (events
       (FastRPC.handle Scenario.appRouter
          {| pathname := "/createUser"; method := "PUT"; json := None |}
          Scenario.heap0)); [|reflexivity].
  apply (f_equal events).
  apply (body_ignored_unless_post Scenario.appRouter
           {| pathname := "/createUser"; method := "PUT"; json := None |}
           Scenario.heap0 (Some Scenario.testUser)).
  discriminate.
Defined.

Lemma loop_completes ms ctx h run :
  advance ms ctx h = Some run →
  FastRPC.middleware_loop ms ctx h
  = MkRun (Normal (FastRPC.Left (value run))) (heap run) (events run).
Proof.
  intros Hadv. pose proof (loop_advance _ [] _ _ _ Hadv) as Hloop.
  rewrite app_nil_r in Hloop. rewrite Hloop. unfold prepend; simpl.
  by rewrite app_nil_r.
Qed.

(** X11: when every middleware of a registered procedure calls [next] and
    returns no response, and the handler returns a value with a JSON text,
    the answer is status 200 with that value as body; the handler is called
    once, after all the middleware, with the accepted input and the context
    the last middleware passed on. *)
Theorem handle_success this req h route raw inp run data :
  FastRPC.get (FastRPC.routes this) (procedure_name req) = FastRPC.Entry route →
  read_input req = Some raw →
  check_input (FastRPC.input route) raw h = Normal (inr inp) →
  advance (FastRPC.middleware route) (FastRPC.working_context this h).1
    (FastRPC.working_context this h).2 = Some run →
  h_result (FastRPC.handler route inp (value run) (heap run))
  = Normal (Serializable data) →
  FastRPC.handle this req h
  = MkRun (New {| status := 200; body := JsonBody data |})
      (h_heap (FastRPC.handler route inp (value run) (heap run)))
      (events run ++ [HandlerCalled inp (value run)]).
Proof.
  intros Hget Hread Hcheck Hadv Hres. unfold FastRPC.handle.
  rewrite (handle_try_route _ _ _ _ _ _ Hget Hread Hcheck).
  rewrite (loop_completes _ _ _ _ Hadv). simpl.
  unfold FastRPC.call_handler, prepend; simpl. by rewrite Hres.
Qed.

Lemma handle_success_witness :
  FastRPC.handle Scenario.appRouter
    (Scenario.POST "/createUser" (Some Scenario.testUser)) Scenario.heap0
  = MkRun
      (New {| status := 200;
              body := JsonBody (JObject [("id", JString "1");
                                         ("name", JString "Test User")]) |})
      (<[3%positive := ∅]> Scenario.heap0)
      [HandlerCalled (Parsed (JObject [("name", JString "Test User")]))
         3%positive].
Proof.
  by erewrite (handle_success Scenario.appRouter
                 (Scenario.POST "/createUser" (Some Scenario.testUser))
                 Scenario.heap0 Scenario.createUserRoute
                 (Parsed Scenario.testUser));
    [|reflexivity..].
Defined.

Lemma value_catch r :
  value (FastRPC.catch r)
  = match value r with
    | Normal response => response
    | Throw e => caught_response e
    end.
Proof. by destruct r as [[?|[]] ? ?]. Qed.





(** X13: a request calls the handler at most once. *)
Theorem handler_called_at_most_once this req h :
  length (handler_calls (events (FastRPC.handle this req h))) ≤ 1.
Proof.
  destruct (FastRPC.get (FastRPC.routes this) (procedure_name req))
    as [|route|] eqn:Hget.
  - rewrite (handle_not_found _ _ _ Hget). simpl. lia.
  - destruct (read_input req) as [raw|] eqn:Hread.
    2:{ rewrite handle_invalid_json by (by rewrite ?Hget). simpl. lia. }
    destruct (check_input (FastRPC.input route) raw h)
      as [[resp|inp]|e] eqn:Hcheck.
    + rewrite (handle_rejected _ _ _ _ _ _ Hget Hread Hcheck). simpl. lia.
    + rewrite (handler_calls_route _ _ _ _ _ _ Hget Hread Hcheck).
      destruct (value _) as [[?|?]|?]; simpl; lia.
    + rewrite (handle_check_throws _ _ _ _ _ _ Hget Hread Hcheck). simpl.
      destruct (caught_log_calls e) as [_ ->]. simpl. lia.
  - destruct (read_input req) as [raw|] eqn:Hread.
    + rewrite (handle_inherited _ _ _ _ Hget Hread). simpl. lia.
    + rewrite handle_invalid_json by (by rewrite ?Hget). simpl. lia.
Qed.

Lemma spans_no_console ms cs e : ConsoleError e ∉ spans ms cs.
Proof.
  revert cs. induction ms as [|m ms IH]; intros [|c cs]; simpl;
    try apply not_elem_of_nil.
  rewrite spans_cons. unfold FastRPC.span.
  rewrite elem_of_app, !elem_of_cons, elem_of_nil.
  intros [[?|[?|[]]]|?]; try done. by apply (IH cs).
Qed.

Lemma handle_try_no_console this req h e :
  ConsoleError e ∉ events (FastRPC.handle_try this req h).
Proof.
  unfold FastRPC.handle_try.
  destruct (FastRPC.falsy _); [apply not_elem_of_nil|].
  destruct (read_input req) as [raw|]; [|apply not_elem_of_nil].
  destruct (check_input _ raw h) as [[resp|inp]|?]; try apply not_elem_of_nil.
  destruct (FastRPC.working_context this h) as [ctx0 h0].
  destruct (loop_spans
              (default [] (FastRPC.slot_middleware
                             (FastRPC.get (FastRPC.routes this)
                                (procedure_name req)))) ctx0 h0)
    as (n & cs & _ & _ & Hevs).
  set (chain := FastRPC.middleware_loop _ ctx0 h0) in *.
  destruct (value chain) as [[resp|ctx]|?]; cbn [events];
    rewrite ?Hevs; try apply spans_no_console.
  destruct (FastRPC.slot_handler _);
    unfold prepend, FastRPC.call_handler; cbn [events];
    [|apply spans_no_console].
  rewrite elem_of_app, list_elem_of_singleton.
  intros [?%spans_no_console|?]; done.
Qed.

(** X14: [console.error] is called only on the way to the 500 response, and
    with the value that the [try] block threw, which is no [ZodError]; and
    it is called whenever such a value is thrown. *)
Theorem console_error_only_with_500 this req h e :
  ConsoleError e ∈ events (FastRPC.handle this req h)
  ↔ (∃ class message, e = JsError class message)
    ∧ value (FastRPC.handle_try this req h) = Throw e
    ∧ value (FastRPC.handle this req h) = errorResponse.
Proof.
  unfold FastRPC.handle. rewrite events_catch, value_catch, elem_of_app.
  pose proof (handle_try_no_console this req h e) as Hno.
  destruct (value (FastRPC.handle_try this req h)) as [resp|[errors|c m]];
    simpl; rewrite ?elem_of_nil, ?list_elem_of_singleton.
  - split; [by intros [?|[]]|by intros (_ & ? & _)].
  - split; [by intros [?|[]]|]. by intros ((? & ? & ->) & ? & _).
  - split.
    + intros [?|[= ->]]; [done|]. eauto.
    + intros (_ & [= <-] & _). by right.
Qed.

(** X15: a name that is not registered and that is not found along the
    prototype chain of the route table is answered with the module-level
    [notFoundResponse] object, constructed with status 404 and
    [{"error": "Not found"}], whatever the method and the body; nothing is
    called, nothing is logged and the heap is left as it was.  Every such
    request is answered with that one object: its body is there for whoever
    reads it first, and reading it again, for this request or for another
    one, throws. *)
Theorem unknown_name_is_answered_404 this req h :
  ¬ registered (FastRPC.routes this) (procedure_name req) →
  FastRPC.proto (FastRPC.routes this) = None →
  procedure_name req ∉ FastRPC.Object_prototype_keys →
  FastRPC.handle this req h = MkRun notFoundResponse h []
  ∧ constructed (value (FastRPC.handle this req h))
    = {| status := 404;
         body := JsonBody (JObject [("error", JString "Not found")]) |}
  ∧ (∀ used,
       notFound_used used = false →
       (read_body (value (FastRPC.handle this req h)) used).1
       = Normal (JsonBody (JObject [("error", JString "Not found")])))
  ∧ (∀ req' h' used,
       ¬ registered (FastRPC.routes this) (procedure_name req') →
       procedure_name req' ∉ FastRPC.Object_prototype_keys →
       (read_body (value (FastRPC.handle this req' h'))
          (read_body (value (FastRPC.handle this req h)) used).2).1
       = Throw (JsError "TypeError" "Body is unusable")).
Proof.
  intros Hreg Hproto Hkeys.
  rewrite (handle_not_found _ _ _ (get_undefined _ _ Hreg Hproto Hkeys)).
  split_and!; [done..| |].
  - intros used Hused. simpl. by rewrite Hused.
  - intros req' h' used Hreg' Hkeys'.
    rewrite (handle_not_found _ _ _ (get_undefined _ _ Hreg' Hproto Hkeys')).
    simpl. by destruct (notFound_used used) eqn:Hused; simpl; rewrite ?Hused.
Qed.

Lemma unknown_name_is_answered_404_witness :
  ¬ registered (FastRPC.routes Scenario.appRouter)
      (procedure_name (Scenario.POST "/unknown" None))
  ∧ FastRPC.handle Scenario.appRouter (Scenario.POST "/unknown" None)
      Scenario.heap0
    = MkRun notFoundResponse Scenario.heap0 []
  ∧ (read_body
       (value (FastRPC.handle Scenario.appRouter (Scenario.GET "/missing")
                 Scenario.heap0))
       (read_body
          (value (FastRPC.handle Scenario.appRouter
                    (Scenario.POST "/unknown" None) Scenario.heap0))
          unread).2).1
    = Throw (JsError "TypeError" "Body is unusable").
Proof.
  assert (¬ registered (FastRPC.routes Scenario.appRouter)
              (procedure_name (Scenario.POST "/unknown" None))) as Hreg.
  { rewrite <-get_entry_registered. by intros [route Hroute]. }
  assert (¬ registered (FastRPC.routes Scenario.appRouter)
              (procedure_name (Scenario.GET "/missing"))) as Hreg'.
  { rewrite <-get_entry_registered. by intros [route Hroute]. }
  split; [exact Hreg|].
  destruct (unknown_name_is_answered_404 Scenario.appRouter
              (Scenario.POST "/unknown" None) Scenario.heap0 Hreg eq_refl)
    as (Hrun & _ & _ & Hagain).
  { by apply (bool_decide_unpack _). }
  split; [exact Hrun|].
  apply (Hagain (Scenario.GET "/missing") Scenario.heap0 unread Hreg').
  by apply (bool_decide_unpack _).
Defined.

(** X16: a name that nobody registered but that [Object.prototype] has
    (as [constructor], [toString], [valueOf]) is not answered 404: once the
    input is read, the answer is the module-level [errorResponse] object,
    constructed with status 500 and [{"error": "Unknown error"}], the
    [TypeError] of the call of the missing handler is logged, and the only
    change of the heap is the working context that was allocated.  Every such
    request is answered with that one object: its body is there for whoever
    reads it first, and reading it again, for this request or for another
    one, throws. *)
Theorem inherited_name_is_answered_500 this req h raw :
  ¬ registered (FastRPC.routes this) (procedure_name req) →
  procedure_name req ∈ FastRPC.Object_prototype_keys →
  read_input req = Some raw →
  FastRPC.handle this req h
  = MkRun errorResponse
      (<[fresh (dom h) := default ∅ (h !! FastRPC.ctx this)]> h)
      [ConsoleError (JsError "TypeError" "route.handler is not a function")]
  ∧ constructed (value (FastRPC.handle this req h))
    = {| status := 500;
         body := JsonBody (JObject [("error", JString "Unknown error")]) |}
  ∧ (∀ used,
       error_used used = false →
       (read_body (value (FastRPC.handle this req h)) used).1
       = Normal (JsonBody (JObject [("error", JString "Unknown error")])))
  ∧ (∀ req' h' raw' used,
       ¬ registered (FastRPC.routes this) (procedure_name req') →
       procedure_name req' ∈ FastRPC.Object_prototype_keys →
       read_input req' = Some raw' →
       (read_body (value (FastRPC.handle this req' h'))
          (read_body (value (FastRPC.handle this req h)) used).2).1
       = Throw (JsError "TypeError" "Body is unusable")).
Proof.
  intros Hreg Hkeys Hread.
  rewrite (handle_inherited _ _ _ raw (get_inherited _ _ Hreg Hkeys) Hread).
  split_and!; [done..| |].
  - intros used Hused. simpl. by rewrite Hused.
  - intros req' h' raw' used Hreg' Hkeys' Hread'.
    rewrite (handle_inherited _ _ _ raw' (get_inherited _ _ Hreg' Hkeys')
               Hread').
    simpl. by destruct (error_used used) eqn:Hused; simpl; rewrite ?Hused.
Qed.

Lemma inherited_name_is_answered_500_witness :
  procedure_name (Scenario.POST "/api/constructor" (Some JNull))
    ∈ FastRPC.Object_prototype_keys
  ∧ value (FastRPC.handle Scenario.appRouter
             (Scenario.POST "/api/constructor" (Some JNull)) Scenario.heap0)
    = errorResponse
  ∧ (read_body
       (value (FastRPC.handle Scenario.appRouter (Scenario.GET "/valueOf")
                 Scenario.heap0))
       (read_body
          (value (FastRPC.handle Scenario.appRouter
                    (Scenario.POST "/api/constructor" (Some JNull))
                    Scenario.heap0))
          unread).2).1
    = Throw (JsError "TypeError" "Body is unusable").
Proof.
  assert (procedure_name (Scenario.POST "/api/constructor" (Some JNull))
            ∈ FastRPC.Object_prototype_keys) as Hkeys
    by (by apply (bool_decide_unpack _)).
  assert (procedure_name (Scenario.GET "/valueOf")
            ∈ FastRPC.Object_prototype_keys) as Hkeys'
    by (by apply (bool_decide_unpack _)).
  assert (∀ req, ¬ registered (FastRPC.routes Scenario.appRouter)
                     (procedure_name req)
                 ↔ ¬ ∃ route,
                       FastRPC.get (FastRPC.routes Scenario.appRouter)
                         (procedure_name req) = FastRPC.Entry route) as Hreg.
  { intros req. by rewrite get_entry_registered. }
  split; [exact Hkeys|].
  destruct (inherited_name_is_answered_500 Scenario.appRouter
              (Scenario.POST "/api/constructor" (Some JNull))
              Scenario.heap0 (Parsed JNull)) as (Hrun & _ & _ & Hagain);
    [|exact Hkeys|reflexivity|].
  { apply Hreg. by intros [route Hroute]. }
  split; [by rewrite Hrun|].
  apply (Hagain (Scenario.GET "/valueOf") Scenario.heap0
           (Object emptyObject) unread); [|exact Hkeys'|reflexivity].
  apply Hreg. by intros [route Hroute].
Defined.

(** X17: [handle] writes to no object that was there before the request:
    an object that the callbacks of the resolved route leave alone has the
    same properties afterwards (the working context is a new object). *)
Theorem handle_keeps_objects this req h l :
  is_Some (h !! l) →
  (∀ route,
     FastRPC.get (FastRPC.routes this) (procedure_name req)
     = FastRPC.Entry route →
     Forall (middleware_keeps l) (FastRPC.middleware route)
     ∧ handler_keeps l (FastRPC.handler route)) →
  heap (FastRPC.handle this req h) !! l = h !! l.
Proof.
  intros Hsome Hroute.
  destruct (working_context_copy this h) as (Hfresh & _ & Hother).
  assert ((FastRPC.working_context this h).1 ≠ l) as Hne.
  { intros Heq. rewrite Heq in Hfresh. rewrite Hfresh in Hsome.
    by destruct Hsome. }
  destruct (FastRPC.get (FastRPC.routes this) (procedure_name req))
    as [|route|] eqn:Hget.
  - by rewrite (handle_not_found _ _ _ Hget).
  - destruct (Hroute route eq_refl) as [Hms Hhandler].
    destruct (read_input req) as [raw|] eqn:Hread.
    2:{ by rewrite handle_invalid_json by (by rewrite ?Hget). }
    destruct (check_input (FastRPC.input route) raw h)
      as [[resp|inp]|e] eqn:Hcheck.
    + by rewrite (handle_rejected _ _ _ _ _ _ Hget Hread Hcheck).
    + destruct (loop_keeps _ _ _ (FastRPC.working_context this h).2 Hms Hne)
        as [Hheap Hleft].
      { by rewrite Hother. }
      rewrite Hother in Hheap by done.
      unfold FastRPC.handle.
      rewrite heap_catch, (handle_try_route _ _ _ _ _ _ Hget Hread Hcheck).
      cbv zeta.
      destruct (value (FastRPC.middleware_loop _ _ _)) as [[r|ctx]|e];
        try done.
      unfold prepend, FastRPC.call_handler; cbn [heap].
      rewrite Hhandler; [done|by apply Hleft|by rewrite Hheap].
    + by rewrite (handle_check_throws _ _ _ _ _ _ Hget Hread Hcheck).
  - destruct (read_input req) as [raw|] eqn:Hread.
    + rewrite (handle_inherited _ _ _ _ Hget Hread). simpl. by apply Hother.
    + by rewrite handle_invalid_json by (by rewrite ?Hget).
Qed.

Lemma handle_keeps_objects_witness :
  is_Some (<[7%positive := {[ "n" := VNumber 1 ]}]> Scenario.heap0 !! 7%positive)
  ∧ heap (FastRPC.handle Scenario.contextRouter Scenario.adminOnly
            (<[7%positive := {[ "n" := VNumber 1 ]}]> Scenario.heap0))
    !! 7%positive
    = Some {[ "n" := VNumber 1 ]}.
Proof.
  assert (is_Some (<[7%positive := {[ "n" := VNumber 1 ]}]> Scenario.heap0
                   !! 7%positive)) as Hsome by (by eexists).
  split; [exact Hsome|].
  rewrite (handle_keeps_objects Scenario.contextRouter Scenario.adminOnly
             _ 7%positive Hsome); [reflexivity|].
  intros route [= <-]. split; [|apply reportX_keeps].
  constructor; [apply writeX_keeps|].
  constructor; [apply setX_keeps|constructor].
Defined.

(** X18: a request whose method is not [POST] is validated as the
    module-level [emptyObject] object, in the state the heap holds it in when
    the request arrives: for a procedure whose schema rejects that object,
    the request is answered with a new response of status 400 and the
    schema's errors, whatever body it carries, and neither a middleware nor
    the handler is called. *)
Theorem non_post_validates_empty_object this req h route schema errors :
  FastRPC.get (FastRPC.routes this) (procedure_name req) = FastRPC.Entry route →
  FastRPC.input route = Some schema →
  method req ≠ "POST" →
  safeParse schema (Object emptyObject) h = Normal (SafeParseError errors) →
  FastRPC.handle this req h
  = MkRun
      (New {| status := 400;
              body := JsonBody (JObject [("error", errors)]) |})
      h [].
Proof.
  intros Hget Hschema Hmethod Hparse.
  apply (handle_rejected _ _ _ _ (Object emptyObject) _ Hget).
  - unfold read_input. by rewrite decide_False.
  - rewrite Hschema. simpl. by rewrite Hparse.
Qed.

Lemma non_post_validates_empty_object_witness :
  "GET" ≠ "POST"
  ∧ FastRPC.handle Scenario.appRouter
      {| pathname := "/getUser"; method := "GET";
         json := Some (JObject [("id", JString "1")]) |} Scenario.heap0
    = MkRun (validationResponse (JArray [Scenario.required_issue "id"]))
        Scenario.heap0 [].
Proof.
  split; [discriminate|].
  apply (non_post_validates_empty_object Scenario.appRouter
           {| pathname := "/getUser"; method := "GET";
              json := Some (JObject [("id", JString "1")]) |}
           Scenario.heap0
           {| FastRPC.handler := Scenario.getUser; FastRPC.middleware := [];
              FastRPC.input := Some (Scenario.object_with_string "id") |}
           (Scenario.object_with_string "id")
           (JArray [Scenario.required_issue "id"]));
    [reflexivity|reflexivity|discriminate|reflexivity].
Defined.

(** * Further properties of the client *)

(** X19: [mutation] sends the empty object for an absent input and for
    [null]: both calls issue the request that [mutation({})] issues, a [POST]
    of [baseUrl/name] with a JSON content type, and have its outcome; any
    other input is sent as it is. *)
Theorem mutation_sends_input_or_empty_object baseUrl name fetch :
  Client.mutation (Client.createClient baseUrl name) None fetch
  = Client.mutation (Client.createClient baseUrl name) (Some (JObject [])) fetch
  ∧ Client.mutation (Client.createClient baseUrl name) (Some JNull) fetch
    = Client.mutation (Client.createClient baseUrl name) (Some (JObject [])) fetch
  ∧ ∀ input, input ≠ JNull →
      Client.issued
        (Client.mutation (Client.createClient baseUrl name) (Some input) fetch)
      = [(baseUrl +:+ "/" +:+ name,
          {| Client.method := "POST";
             Client.headers := [("Content-Type", "application/json")];
             Client.body := Some input |})].
Proof. split_and!; [done..|]. by intros []. Qed.

(** X20: both client methods fail on a response that is not [ok] with an
    error whose message carries the status in decimal; the body of the
    response is not read. *)
Theorem client_fails_when_not_ok
    baseUrl name input fetch
    (call : Client.Methods → option Json → Client.Fetch → Client.Call)
    url init response :
  call = Client.query ∨ call = Client.mutation →
  Client.issued (call (Client.createClient baseUrl name) input fetch)
  = [(url, init)] →
  fetch url init = Normal response →
  Client.ok response = false →
  Client.outcome (call (Client.createClient baseUrl name) input fetch)
  = Throw (JsError "Error"
             ("HTTP error! status: " +:+ pretty (Client.status response))).
Proof.
  intros [-> | ->] [= <- <-] Hfetch Hok; simpl;
    by rewrite Hfetch; simpl; rewrite Hok.
Qed.

Lemma client_fails_when_not_ok_witness :
  Client.outcome
    (Client.mutation (Client.createClient "http://localhost" "createUser")
       (Some Scenario.invalidUser)
       (Scenario.localFetch Scenario.appRouter Scenario.heap0))
  = Throw (JsError "Error" "HTTP error! status: 400").
Proof.
  by erewrite (client_fails_when_not_ok "http://localhost" "createUser"
                 (Some Scenario.invalidUser)
                 (Scenario.localFetch Scenario.appRouter Scenario.heap0)
                 Client.mutation);
    [|by right|reflexivity..].
Defined.

(** X21: the client's [query] does not reach a procedure whose schema
    rejects the module-level [emptyObject] object as the heap holds it: when
    the request it issues is delivered to [handle] as a [GET] for that
    procedure and the response is reported back, the call fails with
    [HTTP error! status: 400], whatever input it was given. *)
Theorem query_of_schema_procedure_fails
    baseUrl name input fetch this req h route schema errors response :
  FastRPC.get (FastRPC.routes this) (procedure_name req) = FastRPC.Entry route →
  FastRPC.input route = Some schema →
  safeParse schema (Object emptyObject) h = Normal (SafeParseError errors) →
  method req = "GET" →
  fetch (baseUrl +:+ "/" +:+ name)
    {| Client.method := "GET"; Client.headers := []; Client.body := None |}
  = Normal response →
  Client.status response
  = status (constructed (value (FastRPC.handle this req h))) →
  Client.ok response = bool_decide (200 ≤ Client.status response ≤ 299)%Z →
  Client.outcome (Client.query (Client.createClient baseUrl name) input fetch)
  = Throw (JsError "Error" "HTTP error! status: 400").
Proof.
  intros Hget Hschema Hparse Hmethod Hfetch Hstatus Hok.
  assert (FastRPC.handle this req h = MkRun (validationResponse errors) h [])
    as Hhandle.
  { apply (handle_rejected _ _ _ _ (Object emptyObject) _ Hget).
    - unfold read_input. rewrite Hmethod. by rewrite decide_False.
    - rewrite Hschema. simpl. by rewrite Hparse. }
  rewrite Hhandle in Hstatus. simpl in Hstatus.
  rewrite Hstatus in Hok. simpl. rewrite Hfetch. simpl.
  by rewrite Hok, Hstatus.
Qed.

Lemma query_of_schema_procedure_fails_witness :
  Client.outcome
    (Client.query (Client.createClient "http://localhost" "getUser")
       (Some (JObject [("id", JString "1")]))
       (Scenario.localFetch Scenario.appRouter Scenario.heap0))
  = Throw (JsError "Error" "HTTP error! status: 400").
Proof.
  eapply (query_of_schema_procedure_fails "http://localhost" "getUser"
           (Some (JObject [("id", JString "1")]))
           (Scenario.localFetch Scenario.appRouter Scenario.heap0)
           Scenario.appRouter (Scenario.GET "/getUser") Scenario.heap0
           {| FastRPC.handler := Scenario.getUser; FastRPC.middleware := [];
              FastRPC.input := Some (Scenario.object_with_string "id") |}
           (Scenario.object_with_string "id")
           (JArray [Scenario.required_issue "id"]));
    reflexivity.
Defined.

(** * Further properties of the context *)

(** X22: a router constructed without a context gets a new empty object as
    its base context and an empty route table; no object of the heap
    changes, and a second router constructed that way gets another
    object. *)
Theorem new_router_has_fresh_context h :
  h !! FastRPC.ctx (FastRPC.new None h).1 = None
  ∧ (FastRPC.new None h).2 !! FastRPC.ctx (FastRPC.new None h).1 = Some ∅
  ∧ (∀ l, l ≠ FastRPC.ctx (FastRPC.new None h).1 →
          (FastRPC.new None h).2 !! l = h !! l)
  ∧ (∀ name, ¬ registered (FastRPC.routes (FastRPC.new None h).1) name)
  ∧ FastRPC.ctx (FastRPC.new None (FastRPC.new None h).2).1
    ≠ FastRPC.ctx (FastRPC.new None h).1.
Proof.
  unfold FastRPC.new, alloc; simpl. split_and!.
  - apply not_elem_of_dom, is_fresh.
  - apply lookup_insert_eq.
  - intros l Hl. by apply lookup_insert_ne.
  - intros name. apply (registered_init (fresh (dom h))).
  - intros Heq.
    apply (is_fresh (dom (<[fresh (dom h) := (∅ : Obj)]> h))).
    rewrite Heq. apply elem_of_dom. rewrite lookup_insert_eq. by eexists.
Qed.

(** When the loop is left, the context is the one it was started with, or
    the last argument of [next] of a middleware that the chain reached. *)
Lemma loop_left_provenance ms ctx h c :
  value (FastRPC.middleware_loop ms ctx h) = Normal (FastRPC.Left c) →
  c = ctx
  ∨ ∃ pre m post run,
      ms = pre ++ m :: post
      ∧ advance pre ctx h = Some run
      ∧ mw_result (mw_apply m (value run) (heap run)) = Normal ReturnsOther
      ∧ last (mw_next (mw_apply m (value run) (heap run))) = Some c.
Proof.
  revert ctx h. induction ms as [|m ms IH]; intros ctx h; simpl.
  - intros [= <-]. by left.
  - destruct (mw_result (mw_apply m ctx h)) as [[resp|]|e] eqn:Hres;
      simpl; try done.
    case_bool_decide as Hnext; simpl.
    + destruct (last (mw_next (mw_apply m ctx h))) as [x|] eqn:Hlast.
      2:{ by apply last_None in Hlast. }
      simpl. intros Hrest.
      destruct (IH _ _ Hrest) as [->|(pre & m' & post & run & -> & Hadv & Hm')].
      * right. by exists [], m, ms, (MkRun ctx h []).
      * right.
        exists (m :: pre), m', post, (prepend (FastRPC.span m ctx) run).
        split; [done|]. simpl. rewrite Hres, Hlast, Hadv. by destruct run.
    + intros [= <-]. left. by rewrite Hnext.
Qed.

(** X23: the context a handler is called with is the working context of the
    request, or the context that a middleware of the procedure passed to
    [next] (last) in this very run, after the chain advanced to it through
    the middleware registered before it; the handler is handed nothing else,
    so it receives the base context only from a middleware that passed it
    on. *)
Theorem handler_context_provenance this req h route inp c :
  FastRPC.get (FastRPC.routes this) (procedure_name req) = FastRPC.Entry route →
  (inp, c) ∈ handler_calls (events (FastRPC.handle this req h)) →
  (c = (FastRPC.working_context this h).1
   ∨ ∃ pre m post run,
       FastRPC.middleware route = pre ++ m :: post
       ∧ advance pre (FastRPC.working_context this h).1
           (FastRPC.working_context this h).2 = Some run
       ∧ mw_result (mw_apply m (value run) (heap run)) = Normal ReturnsOther
       ∧ last (mw_next (mw_apply m (value run) (heap run))) = Some c)
  ∧ (is_Some (h !! FastRPC.ctx this) → c = FastRPC.ctx this →
     ∃ pre m post run,
       FastRPC.middleware route = pre ++ m :: post
       ∧ advance pre (FastRPC.working_context this h).1
           (FastRPC.working_context this h).2 = Some run
       ∧ last (mw_next (mw_apply m (value run) (heap run)))
         = Some (FastRPC.ctx this)).
Proof.
  intros Hget Hcall.
  destruct (read_input req) as [raw|] eqn:Hread.
  2:{ rewrite handle_invalid_json in Hcall by (by rewrite ?Hget).
      by apply elem_of_nil in Hcall. }
  pose proof (handler_calls_accepted _ _ _ _ _ _ _ Hget Hread Hcall) as Hcheck.
  rewrite (handler_calls_route _ _ _ _ _ _ Hget Hread Hcheck) in Hcall.
  destruct (value (FastRPC.middleware_loop _ _ _)) as [[?|ctx]|?] eqn:Hloop;
    try by apply elem_of_nil in Hcall.
  apply list_elem_of_singleton in Hcall as [= <-].
  pose proof (loop_left_provenance _ _ _ _ Hloop) as Hfrom.
  split; [exact Hfrom|].
  intros Hsome ->.
  destruct Hfrom as [Heq|(pre & m & post & run & Hms & Hadv & _ & Hlast)].
  - destruct (working_context_copy this h) as (Hfresh & _).
    rewrite <-Heq in Hfresh. rewrite Hfresh in Hsome. by destruct Hsome.
  - by exists pre, m, post, run.
Qed.

Lemma handler_context_provenance_witness :
  (Object emptyObject, 4%positive)
    ∈ handler_calls
        (events (FastRPC.handle Scenario.contextRouter Scenario.adminOnly
                   Scenario.heap0))
  ∧ (4%positive = (FastRPC.working_context Scenario.contextRouter
                     Scenario.heap0).1
     ∨ ∃ pre m post run,
         [Scenario.writeX; Scenario.setX] = pre ++ m :: post
         ∧ advance pre
             (FastRPC.working_context Scenario.contextRouter Scenario.heap0).1
             (FastRPC.working_context Scenario.contextRouter Scenario.heap0).2
           = Some run
         ∧ mw_result (mw_apply m (value run) (heap run)) = Normal ReturnsOther
         ∧ last (mw_next (mw_apply m (value run) (heap run)))
           = Some 4%positive).
Proof.
  assert ((Object emptyObject, 4%positive)
            ∈ handler_calls
                (events (FastRPC.handle Scenario.contextRouter
                           Scenario.adminOnly Scenario.heap0))) as Hcall
    by (apply list_elem_of_singleton; reflexivity).
  split; [exact Hcall|].
  exact (proj1
           (handler_context_provenance Scenario.contextRouter
              Scenario.adminOnly Scenario.heap0
              (Scenario.chainRoute [Scenario.writeX; Scenario.setX]
                 Scenario.reportX)
              (Object emptyObject) 4%positive eq_refl Hcall)).
Defined.
